(** * CreatorPilot backend: authentication, roles and admission control

    A shallow embedding of the Express application of [src/index.js] and of
    the [requireAdmin] middleware, together with the properties of the
    authentication and role subsystem.

    [src/index.js] holds two revisions of the application.  Both are
    embedded: definitions ending in [_v1] follow the first revision
    (admin-managed roles, registration without auto-login), definitions
    ending in [_v2] the second one (owner-managed roles, registration that
    answers with a token, profile and title routes).  Handlers that are
    textually the same in both revisions are embedded once.

    Modelling boundary.  The MongoDB collections are finite maps from
    document id to document, and every store operation is total on them, so
    the [catch] arm of a handler is reached only where an exception has a
    cause inside the model: the upstream completion call.  A request is
    well formed: ids are ids and body fields have their declared types. *)

From stdpp Require Import gmap strings list fin_maps sorting.

Local Open Scope string_scope.
Local Open Scope nat_scope.

(** ** Data model *)

(** Modelled from the spec: [models/User.js] is not part of the sources.  A
    document of the [User] collection, without its [_id] (the key of the
    collection); the fields are those of the Account of the data model, and
    the role flags are booleans that default to [false]. *)
Record Account := {
  email : string;
  password : string;
  isAdmin : bool;
  isOwner : bool;
  name : option string;
  bio : option string
}.

(** A JavaScript string is a sequence of UTF-16 code units; [length] counts
    code units, as [String.prototype.length] does. *)
Abbreviation jsstring := (list N).

(** A document of the [Transcript] collection ([TranscriptSchema], with the
    [createdAt] stamp of [timestamps: true]). *)
Record Transcript := {
  text : jsstring;
  format : string;
  result : string;
  t_userId : nat;
  createdAt : N
}.

(** The payload a handler signs into a session token.  The first revision
    signs [{userId, isAdmin}], the second adds [isOwner]. *)
Record Claims := {
  userId : nat;
  claim_isAdmin : option bool;
  claim_isOwner : option bool
}.

(** A signed token: the payload, the key it was signed with and the
    [iat]/[exp] stamps (seconds). *)
Record Token := {
  payload : Claims;
  signing_key : string;
  iat : N;
  exp : N
}.

(** Modelled from the spec: the rate window of one client address is kept
    by the [express-rate-limit] package, which is not part of the sources; it
    holds a request count and the window-start timestamp. *)
Record Window := {
  count : nat;
  windowStart : N
}.

(** The state of the server process and of its database. *)
Record State := {
  users : gmap nat Account;
  transcripts : gmap nat Transcript;
  windows : gmap string Window
}.

(** What [res.json] serialises for a user document.  [j_password] is [None]
    when the query projected the field away with [select('-password')]. *)
Record UserJson := {
  j_id : nat;
  j_email : string;
  j_password : option string;
  j_isAdmin : bool;
  j_isOwner : bool;
  j_name : option string;
  j_bio : option string
}.

(** The projection [select('text format result createdAt')] of a transcript
    (the [_id] is always kept). *)
Record HistoryItem := {
  h_id : nat;
  h_text : jsstring;
  h_format : string;
  h_result : string;
  h_createdAt : N
}.

(** Response bodies, one constructor per JSON shape the handlers send. *)
Inductive Body :=
  | BMessage (message : string)
  | BError (error : string)
  | BToken (token : Token)
  | BChapters (chapters : string)
  | BTitles (titles : string)
  | BTranscripts (docs : list (nat * Transcript))
  | BHistory (docs : list HistoryItem)
  | BUsers (docs : list UserJson)
  | BUser (doc : UserJson)
  | BUserUpdated (message : string) (user : UserJson)
  | BMessageWithError (message : string)
  | BUnauthenticated
  | BNoRoute.

Record Response := {
  status : nat;
  body : Body
}.

(** The routes of the application with the request data each handler reads:
    body fields and path parameters. *)
Inductive Route :=
  | PostRegister (email password : string)
  | PostLogin (email password : string)
  | PostGenerateChapters (transcript : jsstring) (format : string)
  | GetTranscripts
  | GetHistory
  | GetAdminUsers
  | PutToggleAdmin (userId : nat)
  | DeleteTranscript (id : nat)
  | DeleteHistory (id : nat)
  | GetProfile
  | PutProfile (name bio : option string)
  | PostGenerateTitles (transcript : option jsstring).

(** One inbound request: the client address, the clock at arrival
    (milliseconds), the bearer token of the [Authorization] header if there
    is one, the outcome the upstream completion call has if the handler
    makes it ([None]: the call throws), and the route. *)
Record Request := {
  ip : string;
  now : N;
  authorization : option Token;
  upstream : option string;
  route : Route
}.

Inductive Revision := Rev1 | Rev2.

(** ** Rate limiting *)

(** [windowMs: 60 * 1000] and [max: 10] of the [rateLimit] configuration. *)
Definition windowMs : N := 60 * 1000.
Definition max : nat := 10.

Definition too_many_requests : Response :=
  {| status := 429;
     body := BError "Too many requests, please try again in a minute." |}.

(** Modelled from the spec: the window a request arriving at [t] counts
    against is the stored one unless it has elapsed (or the client has none
    yet); the count resets when the window elapses. *)
Definition current_window (t : N) (w : option Window) : Window :=
  match w with
  | Some w =>
      if decide (windowStart w + windowMs ≤ t)%N
      then {| count := 0; windowStart := t |}
      else w
  | None => {| count := 0; windowStart := t |}
  end.

(** Modelled from the spec: the admission decision of the
    [express-rate-limit] middleware, which is not part of the sources.  If
    the client's current window count is below the ceiling, increment and
    admit; otherwise reject.  The count resets when the window elapses. *)
Definition limiter (t : N) (client : string) (ws : gmap string Window)
  : bool * gmap string Window :=
  let w := current_window t (ws !! client) in
  if decide (count w < max)
  then (true, <[client := {| count := S (count w); windowStart := windowStart w |}]> ws)
  else (false, <[client := w]> ws).

(** The request of [client] arriving at [t] starts a new window. *)
Definition opens_window (t : N) (client : string) (ws : gmap string Window) : Prop :=
  current_window t (ws !! client) = {| count := 0; windowStart := t |}.

(** ** Strings *)

(** [WhiteSpace] and [LineTerminator] code units, the ones
    [String.prototype.trim] removes. *)
Definition is_whitespace (c : N) : bool :=
  bool_decide (c ∈ [9; 10; 11; 12; 13; 32; 160; 5760; 8232; 8233; 8239;
                    8287; 12288; 65279]%N)
  || ((8192 <=? c)%N && (c <=? 8202)%N).

Fixpoint trimStart (s : jsstring) : jsstring :=
  match s with
  | c :: rest => if is_whitespace c then trimStart rest else s
  | [] => []
  end.

Definition trimEnd (s : jsstring) : jsstring :=
  reverse (trimStart (reverse s)).

Definition trim (s : jsstring) : jsstring := trimEnd (trimStart s).

(** ** The collections *)

(** Modelled from the spec: [models/User.js] and the Mongoose queries on it
    are not part of the sources.  [findById] is the lookup of the collection;
    [findOne({email})] returns the first document with that email, [create]
    inserts a document under a fresh id with the role defaults, and [save]
    persists a document fetched earlier under its id. *)
Definition findOne (e : string) (us : gmap nat Account) : option (nat * Account) :=
  snd <$> list_find (λ d, email d.2 = e) (map_to_list us).

(** Modelled from the spec: [User.create] of the absent [models/User.js].
    The new document gets an id no document has, the password hash it is
    given and the role defaults. *)
Definition create (e pw : string) (us : gmap nat Account) : gmap nat Account :=
  <[fresh (dom us) :=
      {| email := e; password := pw; isAdmin := false; isOwner := false;
         name := None; bio := None |}]> us.

(** Modelled from the spec: [user.save()] of the absent [models/User.js]
    persists the in-place mutations of the document fetched under [id]. *)
Definition save (id : nat) (u : Account) (us : gmap nat Account) : gmap nat Account :=
  <[id := u]> us.

(** The order of documents by id, and of transcripts newest first. *)
Definition id_le {A} (a b : nat * A) : Prop := (a.1 ≤ b.1)%nat.

Definition newer (a b : nat * Transcript) : Prop :=
  (createdAt b.2 ≤ createdAt a.2)%N.

#[global] Instance id_le_dec {A} : RelDecision (@id_le A) :=
  λ a b, decide (a.1 ≤ b.1)%nat.

#[global] Instance newer_dec : RelDecision newer :=
  λ a b, decide (createdAt b.2 ≤ createdAt a.2)%N.

(** The documents of a query in the order of their ids. *)
Definition find_all {A} (m : gmap nat A) : list (nat * A) :=
  merge_sort id_le (map_to_list m).

(** [Transcript.find({userId}).sort({createdAt: -1})]: the caller's
    transcripts, newest first. *)
Definition find_transcripts (uid : nat) (ts : gmap nat Transcript)
  : list (nat * Transcript) :=
  merge_sort newer
    (filter (λ d, t_userId d.2 = uid) (find_all ts)).

(** [Transcript.findOne({_id, userId})]. *)
Definition find_own_transcript (id uid : nat) (ts : gmap nat Transcript)
  : option Transcript :=
  match ts !! id with
  | Some t => if decide (t_userId t = uid) then Some t else None
  | None => None
  end.

(** Modelled from the spec: the schema of [models/User.js] is not part of
    the sources.  What [res.json] sends for a document fetched whole is every
    stored field: the password is a selected field of the schema (the login
    handlers read [user.password] off a plain [findOne]) and no field is
    dropped on serialisation. *)
Definition toJSON (id : nat) (u : Account) : UserJson :=
  {| j_id := id; j_email := email u; j_password := Some (password u);
     j_isAdmin := isAdmin u; j_isOwner := isOwner u;
     j_name := name u; j_bio := bio u |}.

(** [select('-password')]. *)
Definition select_minus_password (id : nat) (u : Account) : UserJson :=
  {| j_id := id; j_email := email u; j_password := None;
     j_isAdmin := isAdmin u; j_isOwner := isOwner u;
     j_name := name u; j_bio := bio u |}.

Definition select_history (d : nat * Transcript) : HistoryItem :=
  {| h_id := d.1; h_text := text d.2; h_format := format d.2;
     h_result := result d.2; h_createdAt := createdAt d.2 |}.

Definition set_isAdmin (b : bool) (u : Account) : Account :=
  {| email := email u; password := password u; isAdmin := b;
     isOwner := isOwner u; name := name u; bio := bio u |}.

Definition set_profile (n b : option string) (u : Account) : Account :=
  {| email := email u; password := password u; isAdmin := isAdmin u;
     isOwner := isOwner u; name := n; bio := b |}.

Definition with_users (us : gmap nat Account) (st : State) : State :=
  {| users := us; transcripts := transcripts st; windows := windows st |}.

Definition with_transcripts (ts : gmap nat Transcript) (st : State) : State :=
  {| users := users st; transcripts := ts; windows := windows st |}.

Definition with_windows (ws : gmap string Window) (st : State) : State :=
  {| users := users st; transcripts := transcripts st; windows := ws |}.

Definition respond (code : nat) (b : Body) : Response :=
  {| status := code; body := b |}.

(** ** Session tokens *)

(** [expiresIn: '7d'], in seconds. *)
Definition expiresIn : N := 7 * 24 * 60 * 60.

(** Modelled from the spec: the token issuer is the [jsonwebtoken] package,
    which is not part of the sources.  [jwt.sign(payload, secret,
    {expiresIn: '7d'})] at clock [t] (milliseconds) serialises the claims
    with a fixed 7-day expiry. *)
Definition jwt_sign (p : Claims) (secret : string) (t : N) : Token :=
  {| payload := p; signing_key := secret;
     iat := t / 1000; exp := t / 1000 + expiresIn |}.

(** Modelled from the spec: the token verifier of the [jsonwebtoken]
    package.  [jwt.verify(token, secret)] at clock [t] checks signature
    integrity and expiry and gives the payload. *)
Definition jwt_verify (tok : Token) (secret : string) (t : N) : option Claims :=
  if decide (signing_key tok = secret)
  then if decide (t / 1000 < exp tok)%N then Some (payload tok) else None
  else None.

(** Every account of [st] is still there in [st'], with the same [isOwner]. *)
Definition keeps_isOwner (st st' : State) : Prop :=
  ∀ id a, users st !! id = Some a →
    ∃ a', users st' !! id = Some a' ∧ isOwner a' = isOwner a.

(** What arrives at the application.  [app.use(express.json())] is mounted
    in front of [app.use(limiter)]: a request whose body the parser accepts
    goes on to the limiter and the routes; one whose body it refuses is
    answered with the parser's status (400 for malformed JSON, 413 for a body
    over the size limit) and goes no further. *)
Inductive Inbound :=
  | Parsed (req : Request)
  | BodyRefused (code : nat).

(** Who answered: the limiter or a route, or the error handling of the body
    parser. *)
Inductive Outcome :=
  | Answered (r : Response)
  | ParserError (code : nat).

(** The request was passed on to the routes: it was answered, and not with
    the limiter's 429. *)
Definition reached_route (o : Outcome) : bool :=
  match o with
  | Answered r => negb (status r =? 429)
  | ParserError _ => false
  end.

(** How many of the requests of [client] were passed on to the routes. *)
Fixpoint served_of (client : string) (inbs : list Inbound) (outs : list Outcome)
  : nat :=
  match inbs, outs with
  | Parsed req :: inbs', o :: outs' =>
      (if decide (ip req = client) then (if reached_route o then 1 else 0) else 0)
      + served_of client inbs' outs'
  | BodyRefused _ :: inbs', _ :: outs' => served_of client inbs' outs'
  | _, _ => 0
  end.

(** A request of [client], if that is what arrives, arrives before [t]. *)
Definition arrives_before (client : string) (t : N) (inb : Inbound) : Prop :=
  match inb with
  | Parsed req => ip req = client → (now req < t)%N
  | BodyRefused _ => True
  end.

(** The routes mounted without [requireAuth]. *)
Definition is_public (r : Route) : bool :=
  match r with
  | PostRegister _ _ | PostLogin _ _ => true
  | _ => false
  end.

(** The routes a revision mounts. *)
Definition routed (v : Revision) (r : Route) : bool :=
  match r with
  | PostRegister _ _ | PostLogin _ _ | PostGenerateChapters _ _
  | GetAdminUsers | PutToggleAdmin _ => true
  | GetTranscripts => match v with Rev1 => true | Rev2 => false end
  | _ => match v with Rev1 => false | Rev2 => true end
  end.

(** A serialised user document that carries a password hash, and a response
    body that holds such a document. *)
Definition has_password (d : UserJson) : bool :=
  match j_password d with
  | Some _ => true
  | None => false
  end.

Definition body_has_password (b : Body) : bool :=
  match b with
  | BUsers docs => existsb has_password docs
  | BUser d => has_password d
  | BUserUpdated _ d => has_password d
  | _ => false
  end.

(** ** Sample data

    A three-account database (an owner, an admin, a plain user), a toy
    password hash and a few requests, used to run the handlers. *)

Definition sample_hash (pw : string) : string := "$2a$10$" +:+ pw.

Definition sample_compare (pw h : string) : bool :=
  bool_decide (sample_hash pw = h).

Definition sample_secret : string := "jwt-secret".

Definition sample_account (e : string) (admin owner : bool) : Account :=
  {| email := e; password := sample_hash "hunter2"; isAdmin := admin;
     isOwner := owner; name := None; bio := None |}.

Definition sample_owner : Account := sample_account "owner@example.com" true true.
Definition sample_admin : Account := sample_account "admin@example.com" true false.
Definition sample_user : Account := sample_account "user@example.com" false false.

Definition sample_state : State :=
  {| users := <[1 := sample_owner]> (<[2 := sample_admin]> (<[3 := sample_user]> ∅));
     transcripts := ∅;
     windows := ∅ |}.

Definition sample_now : N := 1700000000000.

(** The token the second revision's login hands to account [id] at
    [sample_now], for the role flags given. *)
Definition sample_token (id : nat) (admin owner : bool) : Token :=
  jwt_sign {| userId := id; claim_isAdmin := Some admin; claim_isOwner := Some owner |}
           sample_secret sample_now.

Definition sample_request (tok : option Token) (r : Route) : Request :=
  {| ip := "203.0.113.7"; now := sample_now + 1000; authorization := tok;
     upstream := Some "1. A title"; route := r |}.

Definition owner_token : Token := sample_token 1 true true.
Definition admin_token : Token := sample_token 2 true false.

(** A token account 3 still holds from a time it was an admin. *)
Definition stale_admin_token : Token := sample_token 3 true false.

(** The code units of an ASCII string. *)
Definition code_units (s : string) : jsstring :=
  Ascii.N_of_ascii <$> String.list_ascii_of_string s.

(** Eleven characters between five spaces on each side. *)
Definition padded_transcript : jsstring := code_units "     hello world     ".

(** What follows a first request of one client within the minute: a request
    of another client, a body the parser refuses, and ten more requests of
    the client, a second apart. *)
Definition sample_traffic : list Inbound :=
  Parsed {| ip := "198.51.100.2"; now := sample_now + 500; authorization := None;
            upstream := None; route := PostLogin "nobody@example.com" "hunter2" |}
  :: BodyRefused 400
  :: ((λ i : nat,
         Parsed {| ip := "203.0.113.7"; now := sample_now + 1000 * N.of_nat i;
                   authorization := None; upstream := None;
                   route := PostLogin "nobody@example.com" "hunter2" |})
      <$> seq 1 10).

(** The first request of the client, and one after the minute. *)
Definition first_request : Request :=
  {| ip := "203.0.113.7"; now := sample_now; authorization := None;
     upstream := None; route := PostLogin "nobody@example.com" "hunter2" |}.

(** One more request of the client within the minute. *)
Definition twelfth_request : Request :=
  {| ip := "203.0.113.7"; now := sample_now + 30000; authorization := None;
     upstream := None; route := PostLogin "nobody@example.com" "hunter2" |}.

Definition late_request : Request :=
  {| ip := "203.0.113.7"; now := sample_now + windowMs; authorization := None;
     upstream := None; route := PostLogin "nobody@example.com" "hunter2" |}.

(** A login request of another account, used as traffic between two calls. *)
Definition other_login : Request :=
  sample_request None (PostLogin "user@example.com" "hunter2").

Definition user_token : Token := sample_token 3 false false.

Definition sample_transcript (uid : nat) (stamp : N) : Transcript :=
  {| text := code_units "so today we are going to look at"; format := "timestamps";
     result := "00:00 Intro"; t_userId := uid; createdAt := stamp |}.

(** The sample accounts with three stored transcripts: two of account 3 and
    one of account 2. *)
Definition sample_library : State :=
  {| users := users sample_state;
     transcripts :=
       <[1 := sample_transcript 3 10]>
         (<[2 := sample_transcript 2 20]> (<[3 := sample_transcript 3 30]> ∅));
     windows := ∅ |}.

(** ** The application *)

Section Application.

(** [bcrypt.hash(_, 10)] and [bcrypt.compare] of the [bcryptjs] package, and
    the signing secret [process.env.JWT_SECRET]. *)
Variable bcrypt_hash : string → string.
Variable bcrypt_compare : string → string → bool.
Variable JWT_SECRET : string.

(** Modelled from the spec: [middleware/auth.js] is not part of the sources.
    The authentication check extracts the bearer token and calls the token
    verifier; on success the claims become [req.user], on failure the
    request is answered with the 401 of [unauthenticated]. *)
Definition requireAuth (t : N) (auth : option Token) : option Claims :=
  match auth with
  | Some tok => jwt_verify tok JWT_SECRET t
  | None => None
  end.

Definition unauthenticated : Response := respond 401 BUnauthenticated.

(** [requireAdmin]: [None] stands for [next()], [Some r] for the response
    that ends the request. *)
Definition requireAdmin (us : gmap nat Account) (user : Claims) : option Response :=
  match us !! userId user with
  | None => Some (respond 403 (BMessage "Access denied. Admins only."))
  | Some u =>
      if negb (isAdmin u)
      then Some (respond 403 (BMessage "Access denied. Admins only."))
      else None
  end.

(** *** POST /api/register *)

(** First revision, for a body that carries both fields as strings.  The
    [catch] arm of the handler answers exceptions of [bcrypt.hash] and of the
    store (a body without a password, a failing database), which lie outside
    the model. *)
Definition register_v1 (st : State) (e pw : string) : State * Response :=
  match findOne e (users st) with
  | Some _ => (st, respond 400 (BMessage "User already exists"))
  | None =>
      let hashed := bcrypt_hash pw in
      (with_users (create e hashed (users st)) st,
       respond 201 (BMessage "User created"))
  end.

(** The second revision leaves the hashing to the schema and signs a token
    for the document it reads back; reading [user._id] of a missing document
    throws, which the [catch] arm answers. *)
Definition register_v2 (st : State) (t : N) (e pw : string) : State * Response :=
  match findOne e (users st) with
  | Some _ => (st, respond 400 (BMessage "User already exists"))
  | None =>
      let st' := with_users (create e (bcrypt_hash pw) (users st)) st in
      match findOne e (users st') with
      | Some (id, user) =>
          let token :=
            jwt_sign {| userId := id;
                        claim_isAdmin := Some (isAdmin user || false);
                        claim_isOwner := Some (isOwner user || false) |}
                     JWT_SECRET t in
          (st', respond 201 (BToken token))
      | None => (st', respond 500 (BMessageWithError "Register error"))
      end
  end.

(** *** POST /api/login *)

Definition login_v1 (st : State) (t : N) (e pw : string) : Response :=
  match findOne e (users st) with
  | None => respond 400 (BMessage "Invalid credentials")
  | Some (id, user) =>
      if negb (bcrypt_compare pw (password user))
      then respond 400 (BMessage "Invalid credentials")
      else
        let token :=
          jwt_sign {| userId := id;
                      claim_isAdmin := Some (isAdmin user || false);
                      claim_isOwner := None |}
                   JWT_SECRET t in
        respond 200 (BToken token)
  end.

Definition login_v2 (st : State) (t : N) (e pw : string) : Response :=
  match findOne e (users st) with
  | None => respond 400 (BMessage "Invalid credentials")
  | Some (id, user) =>
      if negb (bcrypt_compare pw (password user))
      then respond 400 (BMessage "Invalid credentials")
      else
        let token :=
          jwt_sign {| userId := id;
                      claim_isAdmin := Some (isAdmin user || false);
                      claim_isOwner := Some (isOwner user || false) |}
                   JWT_SECRET t in
        respond 200 (BToken token)
  end.

(** The login of the earlier revision kept in [src/unnamed/part_000], which
    signs [{userId}] alone. *)
Definition login_v0 (st : State) (t : N) (e pw : string) : Response :=
  match findOne e (users st) with
  | None => respond 400 (BMessage "Invalid credentials")
  | Some (id, user) =>
      if negb (bcrypt_compare pw (password user))
      then respond 400 (BMessage "Invalid credentials")
      else
        let token :=
          jwt_sign {| userId := id; claim_isAdmin := None; claim_isOwner := None |}
                   JWT_SECRET t in
        respond 200 (BToken token)
  end.

(** *** POST /api/generate-chapters *)

Definition generate_chapters (st : State) (t : N) (user : Claims)
  (transcript : jsstring) (fmt : string) (completion : option string)
  : State * Response :=
  match completion with
  | Some res =>
      let doc := {| text := transcript; format := fmt; result := res;
                    t_userId := userId user; createdAt := t |} in
      (with_transcripts (<[fresh (dom (transcripts st)) := doc]> (transcripts st)) st,
       respond 200 (BChapters res))
  | None => (st, respond 500 (BError "Something went wrong"))
  end.

(** *** GET /api/transcripts and GET /api/history *)

Definition get_transcripts (st : State) (user : Claims) : Response :=
  respond 200 (BTranscripts (find_transcripts (userId user) (transcripts st))).

Definition get_history (st : State) (user : Claims) : Response :=
  respond 200
    (BHistory (select_history <$> find_transcripts (userId user) (transcripts st))).

(** *** GET /api/admin/users *)

Definition admin_users (st : State) : Response :=
  respond 200
    (BUsers ((λ d, select_minus_password d.1 d.2) <$> find_all (users st))).

(** *** PUT /api/admin/toggle-admin/:userId *)

(** First revision: [requestingUser?.isAdmin] gates the route. *)
Definition toggle_admin_v1 (st : State) (user : Claims) (target : nat)
  : State * Response :=
  let requestingUser := users st !! userId user in
  if negb (from_option isAdmin false requestingUser)
  then (st, respond 403 (BError "Forbidden: Admins only"))
  else
    match users st !! target with
    | None => (st, respond 404 (BError "User not found"))
    | Some u =>
        let u' := set_isAdmin (negb (isAdmin u)) u in
        (with_users (save target u' (users st)) st,
         respond 200 (BUserUpdated "User updated" (toJSON target u')))
    end.

(** Second revision: [requestingUser?.isOwner] gates the route, and an
    owner target is refused. *)
Definition toggle_admin_v2 (st : State) (user : Claims) (target : nat)
  : State * Response :=
  let requestingUser := users st !! userId user in
  if negb (from_option isOwner false requestingUser)
  then (st, respond 403 (BError "Forbidden: Only owner can manage admin roles"))
  else
    match users st !! target with
    | None => (st, respond 404 (BError "User not found"))
    | Some u =>
        if isOwner u
        then (st, respond 403 (BError "Cannot change owner privileges"))
        else
          let u' := set_isAdmin (negb (isAdmin u)) u in
          (with_users (save target u' (users st)) st,
           respond 200 (BUserUpdated "User role updated" (toJSON target u')))
    end.

(** The actor check of the route in each revision, on the current record
    of the actor. *)
Definition passes_actor_check (v : Revision) (st : State) (user : Claims) : bool :=
  match v with
  | Rev1 => from_option isAdmin false (users st !! userId user)
  | Rev2 => from_option isOwner false (users st !! userId user)
  end.

(** *** DELETE /api/transcripts/:id and DELETE /api/history/:id *)

Definition delete_transcript (st : State) (user : Claims) (id : nat)
  : State * Response :=
  match find_own_transcript id (userId user) (transcripts st) with
  | None => (st, respond 404 (BMessage "Transcript not found or unauthorized"))
  | Some _ =>
      (with_transcripts (delete id (transcripts st)) st,
       respond 200 (BMessage "Transcript deleted"))
  end.

Definition delete_history (st : State) (user : Claims) (id : nat)
  : State * Response :=
  match find_own_transcript id (userId user) (transcripts st) with
  | None => (st, respond 404 (BMessage "Transcript not found"))
  | Some _ =>
      (with_transcripts (delete id (transcripts st)) st,
       respond 200 (BMessage "Transcript deleted successfully"))
  end.

(** *** GET /api/profile and PUT /api/profile *)

Definition get_profile (st : State) (user : Claims) : Response :=
  match users st !! userId user with
  | None => respond 404 (BError "User not found")
  | Some u => respond 200 (BUser (select_minus_password (userId user) u))
  end.

Definition put_profile (st : State) (user : Claims) (n b : option string)
  : State * Response :=
  match users st !! userId user with
  | None => (st, respond 404 (BError "User not found"))
  | Some u =>
      (with_users (save (userId user) (set_profile n b u) (users st)) st,
       respond 200 (BMessage "Profile updated"))
  end.

(** *** POST /api/generate-titles *)

(** [!transcript] for a body field that is absent or a string. *)
Definition falsy (transcript : option jsstring) : bool :=
  match transcript with
  | None => true
  | Some [] => true
  | Some _ => false
  end.

Definition generate_titles (transcript : option jsstring)
  (completion : option string) : Response :=
  if falsy transcript
     || (length (trim (default [] transcript)) <? 20)%nat
  then respond 400 (BError "Transcript is too short or missing.")
  else
    match completion with
    | Some titles => respond 200 (BTitles titles)
    | None => respond 500 (BError "Failed to generate titles")
    end.

(** *** Routing *)

(** A route behind [requireAuth]. *)
Definition authenticated (st : State) (req : Request)
  (k : Claims → State * Response) : State * Response :=
  match requireAuth (now req) (authorization req) with
  | Some user => k user
  | None => (st, unauthenticated)
  end.

Definition no_route : Response := respond 404 BNoRoute.

Definition handle_v1 (st : State) (req : Request) : State * Response :=
  match route req with
  | PostRegister e pw => register_v1 st e pw
  | PostLogin e pw => (st, login_v1 st (now req) e pw)
  | PostGenerateChapters tr fmt =>
      authenticated st req (λ user,
        generate_chapters st (now req) user tr fmt (upstream req))
  | GetTranscripts =>
      authenticated st req (λ user, (st, get_transcripts st user))
  | GetAdminUsers =>
      authenticated st req (λ user,
        match requireAdmin (users st) user with
        | Some r => (st, r)
        | None => (st, admin_users st)
        end)
  | PutToggleAdmin target =>
      authenticated st req (λ user, toggle_admin_v1 st user target)
  | _ => (st, no_route)
  end.

Definition handle_v2 (st : State) (req : Request) : State * Response :=
  match route req with
  | PostRegister e pw => register_v2 st (now req) e pw
  | PostLogin e pw => (st, login_v2 st (now req) e pw)
  | PostGenerateChapters tr fmt =>
      authenticated st req (λ user,
        generate_chapters st (now req) user tr fmt (upstream req))
  | GetHistory =>
      authenticated st req (λ user, (st, get_history st user))
  | GetAdminUsers =>
      authenticated st req (λ user,
        match requireAdmin (users st) user with
        | Some r => (st, r)
        | None => (st, admin_users st)
        end)
  | PutToggleAdmin target =>
      authenticated st req (λ user, toggle_admin_v2 st user target)
  | DeleteTranscript id =>
      authenticated st req (λ user, delete_transcript st user id)
  | DeleteHistory id =>
      authenticated st req (λ user, delete_history st user id)
  | GetProfile =>
      authenticated st req (λ user, (st, get_profile st user))
  | PutProfile n b =>
      authenticated st req (λ user, put_profile st user n b)
  | PostGenerateTitles tr =>
      authenticated st req (λ user, (st, generate_titles tr (upstream req)))
  | GetTranscripts => (st, no_route)
  end.

Definition handle (v : Revision) : State → Request → State * Response :=
  match v with
  | Rev1 => handle_v1
  | Rev2 => handle_v2
  end.

(** [app.use(limiter)] runs in front of every route. *)
Definition serve (v : Revision) (st : State) (req : Request) : State * Response :=
  let '(ok, ws) := limiter (now req) (ip req) (windows st) in
  let st' := with_windows ws st in
  if ok then handle v st' req else (st', too_many_requests).

(** The whole middleware chain: the body parser sits in front of the
    limiter, so what it refuses is neither counted nor routed. *)
Definition app (v : Revision) (st : State) (inb : Inbound) : State * Outcome :=
  match inb with
  | Parsed req => ((serve v st req).1, Answered (serve v st req).2)
  | BodyRefused code => (st, ParserError code)
  end.

(** The application over a sequence of arrivals, in order. *)
Fixpoint app_run (v : Revision) (st : State) (inbs : list Inbound)
  : list Outcome * State :=
  match inbs with
  | [] => ([], st)
  | inb :: rest =>
      let '(st1, o) := app v st inb in
      let '(os, st2) := app_run v st1 rest in
      (o :: os, st2)
  end.

(** The state after a sequence of requests. *)
Definition serve_all (v : Revision) (st : State) (reqs : list Request) : State :=
  foldl (λ st req, (serve v st req).1) st reqs.

(** ** Properties *)

(** *** Routing lemmas *)

Lemma handle_toggle_v2 st req target user :
  route req = PutToggleAdmin target →
  requireAuth (now req) (authorization req) = Some user →
  handle Rev2 st req = toggle_admin_v2 st user target.
Proof.
  intros Hr Ha. unfold handle, handle_v2, authenticated. by rewrite Hr, Ha.
Qed.

Lemma handle_toggle_v1 st req target user :
  route req = PutToggleAdmin target →
  requireAuth (now req) (authorization req) = Some user →
  handle Rev1 st req = toggle_admin_v1 st user target.
Proof.
  intros Hr Ha. unfold handle, handle_v1, authenticated. by rewrite Hr, Ha.
Qed.

Lemma handle_admin_users v st req user :
  route req = GetAdminUsers →
  requireAuth (now req) (authorization req) = Some user →
  handle v st req =
    match requireAdmin (users st) user with
    | Some r => (st, r)
    | None => (st, admin_users st)
    end.
Proof.
  intros Hr Ha. destruct v; unfold handle, handle_v1, handle_v2, authenticated;
    by rewrite Hr, Ha.
Qed.

(** *** The owner gate of the role mutation *)

(** C1 (as amended).  In the second revision a request to
    PUT /api/admin/toggle-admin/:userId gets past the actor check exactly
    when the actor's current record has [isOwner = true]: every other
    authenticated actor, admin or not, is answered 403 "Forbidden: Only
    owner can manage admin roles" and nothing changes.  The first revision
    gates the route on [isAdmin] of the actor's current record instead. *)
Theorem toggle_admin_actor_gate st req target user :
  route req = PutToggleAdmin target →
  requireAuth (now req) (authorization req) = Some user →
  (handle Rev2 st req
     = (st, respond 403 (BError "Forbidden: Only owner can manage admin roles"))
   ↔ from_option isOwner false (users st !! userId user) = false)
  ∧ (handle Rev1 st req = (st, respond 403 (BError "Forbidden: Admins only"))
     ↔ from_option isAdmin false (users st !! userId user) = false).
Proof.
  intros Hr Ha.
  rewrite (handle_toggle_v2 _ _ _ _ Hr Ha), (handle_toggle_v1 _ _ _ _ Hr Ha).
  unfold toggle_admin_v2, toggle_admin_v1. split.
  - destruct (from_option isOwner false (users st !! userId user)); simpl;
      [|done].
    split; [|done].
    destruct (users st !! target) as [u|]; [destruct (isOwner u)|]; simpl;
      intros [=].
  - destruct (from_option isAdmin false (users st !! userId user)); simpl;
      [|done].
    split; [|done].
    destruct (users st !! target) as [u|]; simpl; intros [=].
Qed.

(** C2 (as amended).  In the second revision a call to toggle-admin whose
    target exists and is an owner is answered 403 and leaves the whole state
    unchanged, whoever the authenticated actor is.  The first revision has no
    owner guard: an admin's call toggles [isAdmin] of any existing target. *)
Theorem toggle_admin_owner_target st req target user u :
  route req = PutToggleAdmin target →
  requireAuth (now req) (authorization req) = Some user →
  users st !! target = Some u →
  isOwner u = true →
  (status (handle Rev2 st req).2 = 403 ∧ (handle Rev2 st req).1 = st)
  ∧ (from_option isAdmin false (users st !! userId user) = true →
     handle Rev1 st req
       = (with_users (<[target := set_isAdmin (negb (isAdmin u)) u]> (users st)) st,
          respond 200
            (BUserUpdated "User updated"
               (toJSON target (set_isAdmin (negb (isAdmin u)) u))))).
Proof.
  intros Hr Ha Ht Ho.
  rewrite (handle_toggle_v2 _ _ _ _ Hr Ha), (handle_toggle_v1 _ _ _ _ Hr Ha).
  unfold toggle_admin_v2, toggle_admin_v1. rewrite Ht, Ho. split.
  - by destruct (from_option isOwner false (users st !! userId user)).
  - by intros ->.
Qed.

(** *** The admin gate *)

(** C3.  GET /api/admin/users decides on the stored record of the actor,
    fetched by the id of the token, whatever role flags the token carries:
    if the stored record is missing or has [isAdmin = false] the answer is
    the 403 of [requireAdmin], also for a valid token whose claims say
    [isAdmin = true]; if it has [isAdmin = true] the listing is served. *)
Theorem admin_users_checks_stored_role v st req user :
  route req = GetAdminUsers →
  requireAuth (now req) (authorization req) = Some user →
  (from_option isAdmin false (users st !! userId user) = false →
   handle v st req = (st, respond 403 (BMessage "Access denied. Admins only.")))
  ∧ (from_option isAdmin false (users st !! userId user) = true →
     handle v st req = (st, admin_users st)).
Proof.
  intros Hr Ha. rewrite (handle_admin_users _ _ _ _ Hr Ha). unfold requireAdmin.
  destruct (users st !! userId user) as [a|]; simpl.
  - destruct (isAdmin a); simpl; split; by intros.
  - split; by intros.
Qed.

(** *** The user collection *)

Lemma findOne_Some e (us : gmap nat Account) id a :
  findOne e us = Some (id, a) → us !! id = Some a ∧ email a = e.
Proof.
  unfold findOne. intros H.
  destruct (list_find _ _) as [[i d]|] eqn:Hf; simplify_eq/=.
  apply list_find_Some in Hf as (Hl & He & _).
  apply list_elem_of_lookup_2, elem_of_map_to_list in Hl. done.
Qed.

Lemma findOne_None e (us : gmap nat Account) id a :
  findOne e us = None → us !! id = Some a → email a ≠ e.
Proof.
  unfold findOne. intros H Hl He.
  destruct (list_find _ _) as [[i d]|] eqn:Hf; simplify_eq/=.
  apply list_find_None in Hf. rewrite Forall_forall in Hf.
  apply (Hf (id, a)); [|done]. by apply elem_of_map_to_list.
Qed.

Lemma create_fresh e pw (us : gmap nat Account) id a :
  us !! id = Some a → create e pw us !! id = Some a.
Proof.
  intros H. unfold create. rewrite lookup_insert_ne; [done|].
  intros <-. apply (is_fresh (dom us)), elem_of_dom. eauto.
Qed.

Lemma findOne_create e pw (us : gmap nat Account) :
  findOne e us = None →
  findOne e (create e pw us)
    = Some (fresh (dom us),
            {| email := e; password := pw; isAdmin := false; isOwner := false;
               name := None; bio := None |}).
Proof.
  intros Hn. destruct (findOne e (create e pw us)) as [[id a]|] eqn:Hf.
  - apply findOne_Some in Hf as [Hl He]. unfold create in Hl.
    destruct (decide (fresh (dom us) = id)) as [<-|Hne].
    + rewrite lookup_insert_eq in Hl. by injection Hl as <-.
    + rewrite lookup_insert_ne in Hl by done.
      by destruct (findOne_None _ _ _ _ Hn Hl).
  - exfalso.
    assert (create e pw us !! fresh (dom us)
            = Some {| email := e; password := pw; isAdmin := false;
                      isOwner := false; name := None; bio := None |}) as Hl
      by apply lookup_insert_eq.
    by apply (findOne_None _ _ _ _ Hf Hl).
Qed.

Lemma jwt_verify_sign p secret t :
  jwt_verify (jwt_sign p secret t) secret t = Some p.
Proof.
  unfold jwt_verify, jwt_sign; simpl. rewrite decide_True by done.
  rewrite decide_True; [done|]. unfold expiresIn. lia.
Qed.

(** *** Registration and login *)

(** C4 (as amended).  In the second revision a registration with an email
    no account has is answered 201 with a session token; the token verifies
    at the time of the request and its claims carry the id of the account the
    request created, an id no earlier account had.  The first revision
    creates the account and answers 201 with the message "User created",
    without a token. *)
Theorem register_fresh_email st req e pw :
  route req = PostRegister e pw →
  findOne e (users st) = None →
  (∃ id account tok,
      handle Rev2 st req
        = (with_users (<[id := account]> (users st)) st, respond 201 (BToken tok))
      ∧ users st !! id = None
      ∧ email account = e
      ∧ jwt_verify tok JWT_SECRET (now req) = Some (payload tok)
      ∧ userId (payload tok) = id)
  ∧ (∃ id account,
        handle Rev1 st req
          = (with_users (<[id := account]> (users st)) st,
             respond 201 (BMessage "User created"))
        ∧ users st !! id = None
        ∧ email account = e).
Proof.
  intros Hr Hn. unfold handle, handle_v2, handle_v1. rewrite Hr.
  unfold register_v2, register_v1. rewrite Hn. simpl.
  rewrite (findOne_create _ _ _ Hn). simpl.
  assert (users st !! fresh (dom (users st)) = None) as Hfresh
    by apply not_elem_of_dom, is_fresh.
  split.
  - eexists _, _, _. split; [reflexivity|].
    split; [done|]. split; [done|]. split; [|done].
    apply jwt_verify_sign.
  - eexists _, _. split; [reflexivity|]. done.
Qed.

(** C7.  A login with an email that no account has and a login with the
    email of an account but a password that does not verify against its
    hash get the same response, in both revisions: status 400 with the
    message "Invalid credentials". *)
Theorem login_failures_indistinguishable v st1 st2 req1 req2 e1 pw1 e2 pw2 id u :
  route req1 = PostLogin e1 pw1 →
  route req2 = PostLogin e2 pw2 →
  findOne e1 (users st1) = None →
  findOne e2 (users st2) = Some (id, u) →
  bcrypt_compare pw2 (password u) = false →
  (handle v st1 req1).2 = (handle v st2 req2).2
  ∧ (handle v st1 req1).2 = respond 400 (BMessage "Invalid credentials").
Proof.
  intros Hr1 Hr2 Hn Hs Hc.
  destruct v; unfold handle, handle_v1, handle_v2; rewrite Hr1, Hr2; simpl;
    unfold login_v1, login_v2; by rewrite Hn, Hs, Hc.
Qed.

(** *** The role mutation *)

Lemma handle_toggle v st req target user :
  route req = PutToggleAdmin target →
  requireAuth (now req) (authorization req) = Some user →
  handle v st req
    = match v with
      | Rev1 => toggle_admin_v1 st user target
      | Rev2 => toggle_admin_v2 st user target
      end.
Proof.
  intros Hr Ha. destruct v; [by apply handle_toggle_v1 | by apply handle_toggle_v2].
Qed.

(** What a call that passes the actor check does to an existing target
    that is not an owner. *)
Lemma toggle_admin_step v st req target user u :
  route req = PutToggleAdmin target →
  requireAuth (now req) (authorization req) = Some user →
  users st !! target = Some u →
  isOwner u = false →
  passes_actor_check v st user = true →
  (handle v st req).1
    = with_users (<[target := set_isAdmin (negb (isAdmin u)) u]> (users st)) st
  ∧ status (handle v st req).2 = 200.
Proof.
  intros Hr Ha Ht Ho Hp. rewrite (handle_toggle _ _ _ _ _ Hr Ha).
  destruct v; unfold toggle_admin_v1, toggle_admin_v2; simpl in Hp;
    rewrite Hp, Ht; simpl; [done|]. by rewrite Ho.
Qed.

Lemma set_isAdmin_twice u :
  set_isAdmin (negb (isAdmin (set_isAdmin (negb (isAdmin u)) u)))
    (set_isAdmin (negb (isAdmin u)) u) = u.
Proof. destruct u as [e p a o n b]. unfold set_isAdmin; simpl. by rewrite negb_involutive. Qed.

(** C6.  Two toggle-admin calls in succession on the same existing target
    that is not an owner, each by an actor that passes the actor check at the
    time of its call.  The first call is answered 200 and leaves the target
    stored with [isAdmin] negated and every other field as it was; the second
    call is answered 200 and stores the original value back: the target's
    record, and with it the whole state, is the one the first call found. *)
Theorem toggle_admin_twice v st req1 req2 target user1 user2 u :
  route req1 = PutToggleAdmin target →
  route req2 = PutToggleAdmin target →
  requireAuth (now req1) (authorization req1) = Some user1 →
  requireAuth (now req2) (authorization req2) = Some user2 →
  users st !! target = Some u →
  isOwner u = false →
  passes_actor_check v st user1 = true →
  passes_actor_check v (handle v st req1).1 user2 = true →
  (∃ u1, users (handle v st req1).1 !! target = Some u1
         ∧ isAdmin u1 = negb (isAdmin u)
         ∧ email u1 = email u ∧ password u1 = password u
         ∧ isOwner u1 = isOwner u ∧ name u1 = name u ∧ bio u1 = bio u)
  ∧ status (handle v st req1).2 = 200
  ∧ users (handle v (handle v st req1).1 req2).1 !! target = Some u
  ∧ isAdmin <$> users (handle v (handle v st req1).1 req2).1 !! target
    = Some (isAdmin u)
  ∧ (handle v (handle v st req1).1 req2).1 = st
  ∧ status (handle v (handle v st req1).1 req2).2 = 200.
Proof.
  intros Hr1 Hr2 Ha1 Ha2 Ht Ho Hp1 Hp2.
  destruct (toggle_admin_step v st req1 target user1 u) as [Hs1 Hc1]; try done.
  set (u1 := set_isAdmin (negb (isAdmin u)) u) in *.
  assert (users (handle v st req1).1 !! target = Some u1) as Ht1.
  { rewrite Hs1. simpl. apply lookup_insert_eq. }
  destruct (toggle_admin_step v (handle v st req1).1 req2 target user2 u1)
    as [Hs2 Hc2]; try done.
  assert ((handle v (handle v st req1).1 req2).1 = st) as Hst.
  { rewrite Hs2, Hs1. unfold u1. rewrite set_isAdmin_twice.
    unfold with_users; simpl. rewrite insert_insert_eq, insert_id by done.
    by destruct st. }
  split; [by exists u1|]. split; [done|].
  rewrite Hst, Ht. done.
Qed.

(** C10.  A toggle-admin call answered 200 carries in its body the target's
    document as it is stored after the call, password hash included, in both
    revisions; a GET /api/admin/users answered 200 carries documents none of
    which has a password field. *)
Theorem toggle_admin_response_has_hash v st req target user :
  route req = PutToggleAdmin target →
  requireAuth (now req) (authorization req) = Some user →
  status (handle v st req).2 = 200 →
  (∃ msg u',
      body (handle v st req).2 = BUserUpdated msg (toJSON target u')
      ∧ users (handle v st req).1 !! target = Some u'
      ∧ j_password (toJSON target u') = Some (password u')
      ∧ ∃ u, users st !! target = Some u ∧ password u' = password u)
  ∧ (∀ req',
        route req' = GetAdminUsers →
        status (handle v st req').2 = 200 →
        ∃ docs, body (handle v st req').2 = BUsers docs
                ∧ Forall (λ d, j_password d = None) docs).
Proof.
  intros Hr Ha Hs. split.
  - rewrite (handle_toggle _ _ _ _ _ Hr Ha) in *.
    destruct v; unfold toggle_admin_v1, toggle_admin_v2 in *.
    + destruct (from_option isAdmin false (users st !! userId user));
        simpl in *; [|done].
      destruct (users st !! target) as [u|] eqn:Ht; simpl in *; [|done].
      eexists _, _. split; [done|]. split; [apply lookup_insert_eq|].
      split; [done|]. by exists u.
    + destruct (from_option isOwner false (users st !! userId user));
        simpl in *; [|done].
      destruct (users st !! target) as [u|] eqn:Ht; simpl in *; [|done].
      destruct (isOwner u); simpl in *; [done|].
      eexists _, _. split; [done|]. split; [apply lookup_insert_eq|].
      split; [done|]. by exists u.
  - intros req' Hr' Hs'.
    destruct (requireAuth (now req') (authorization req')) as [user'|] eqn:Ha'.
    + rewrite (handle_admin_users _ _ _ _ Hr' Ha') in *.
      destruct (requireAdmin (users st) user') as [r|] eqn:Hadm; simpl in *.
      * unfold requireAdmin in Hadm.
        destruct (users st !! userId user') as [a|]; [destruct (isAdmin a)|];
          simplify_eq/=.
      * eexists. split; [done|]. apply Forall_fmap, Forall_true. done.
    + destruct v; unfold handle, handle_v1, handle_v2, authenticated in Hs';
        rewrite Hr', Ha' in Hs'; done.
Qed.

(** *** The owner flag *)

Lemma keeps_isOwner_users st st' :
  users st' = users st → keeps_isOwner st st'.
Proof. intros Hu id a Hl. rewrite Hu. eauto. Qed.

Lemma keeps_isOwner_save st id u u' :
  users st !! id = Some u →
  isOwner u' = isOwner u →
  keeps_isOwner st (with_users (save id u' (users st)) st).
Proof.
  intros Hl Ho id' a Hl'. unfold save; simpl.
  destruct (decide (id = id')) as [<-|Hne].
  - rewrite lookup_insert_eq. simplify_eq. eauto.
  - rewrite lookup_insert_ne by done. eauto.
Qed.

Lemma keeps_isOwner_create st e pw :
  keeps_isOwner st (with_users (create e pw (users st)) st).
Proof. intros id a Hl. simpl. eauto using create_fresh. Qed.

Lemma keeps_isOwner_trans st1 st2 st3 :
  keeps_isOwner st1 st2 → keeps_isOwner st2 st3 → keeps_isOwner st1 st3.
Proof.
  intros H12 H23 id a Hl.
  destruct (H12 _ _ Hl) as (a2 & Hl2 & Ho2).
  destruct (H23 _ _ Hl2) as (a3 & Hl3 & Ho3).
  exists a3. split; [done|congruence].
Qed.

Lemma register_v1_keeps_isOwner st e pw :
  keeps_isOwner st (register_v1 st e pw).1.
Proof.
  unfold register_v1. destruct (findOne e (users st)); simpl.
  - by apply keeps_isOwner_users.
  - apply keeps_isOwner_create.
Qed.

Lemma register_v2_keeps_isOwner st t e pw :
  keeps_isOwner st (register_v2 st t e pw).1.
Proof.
  unfold register_v2. destruct (findOne e (users st)); simpl.
  - by apply keeps_isOwner_users.
  - destruct (findOne e _) as [[id user]|]; simpl; apply keeps_isOwner_create.
Qed.

Lemma toggle_admin_v1_keeps_isOwner st user target :
  keeps_isOwner st (toggle_admin_v1 st user target).1.
Proof.
  unfold toggle_admin_v1.
  destruct (negb _); simpl; [by apply keeps_isOwner_users|].
  destruct (users st !! target) as [u|] eqn:Ht; simpl.
  - by apply (keeps_isOwner_save _ _ u).
  - by apply keeps_isOwner_users.
Qed.

Lemma toggle_admin_v2_keeps_isOwner st user target :
  keeps_isOwner st (toggle_admin_v2 st user target).1.
Proof.
  unfold toggle_admin_v2.
  destruct (negb _); simpl; [by apply keeps_isOwner_users|].
  destruct (users st !! target) as [u|] eqn:Ht; simpl.
  - destruct (isOwner u) eqn:Ho; simpl; [by apply keeps_isOwner_users|].
    by apply (keeps_isOwner_save _ _ u).
  - by apply keeps_isOwner_users.
Qed.

Lemma put_profile_keeps_isOwner st user n b :
  keeps_isOwner st (put_profile st user n b).1.
Proof.
  unfold put_profile. destruct (users st !! userId user) as [u|] eqn:Hu; simpl.
  - by apply (keeps_isOwner_save _ _ u).
  - by apply keeps_isOwner_users.
Qed.

Lemma generate_chapters_users st t user tr fmt completion :
  users (generate_chapters st t user tr fmt completion).1 = users st.
Proof. unfold generate_chapters. by destruct completion. Qed.

Lemma delete_transcript_users st user id :
  users (delete_transcript st user id).1 = users st.
Proof. unfold delete_transcript. by destruct (find_own_transcript _ _ _). Qed.

Lemma delete_history_users st user id :
  users (delete_history st user id).1 = users st.
Proof. unfold delete_history. by destruct (find_own_transcript _ _ _). Qed.

Lemma authenticated_keeps_isOwner st req k :
  (∀ user, keeps_isOwner st (k user).1) →
  keeps_isOwner st (authenticated st req k).1.
Proof.
  intros Hk. unfold authenticated.
  destruct (requireAuth _ _); simpl; [done|by apply keeps_isOwner_users].
Qed.

Lemma handle_keeps_isOwner v st req : keeps_isOwner st (handle v st req).1.
Proof.
  destruct v; unfold handle, handle_v1, handle_v2; destruct (route req);
    try (apply authenticated_keeps_isOwner; intros user);
    try (by apply keeps_isOwner_users);
    auto using register_v1_keeps_isOwner, register_v2_keeps_isOwner,
      toggle_admin_v1_keeps_isOwner, toggle_admin_v2_keeps_isOwner,
      put_profile_keeps_isOwner.
  all: try (apply keeps_isOwner_users;
            by auto using generate_chapters_users, delete_transcript_users,
              delete_history_users).
  all: destruct (requireAdmin _ _); by apply keeps_isOwner_users.
Qed.

(** C5.  No request changes the [isOwner] flag of an account: whatever the
    route (registration, login, generation, listing, profile update, role
    mutation, deletion), the revision and the outcome, every account of the
    state before the request is in the state after it with the same
    [isOwner]. *)
Theorem isOwner_never_mutated v st req id a :
  users st !! id = Some a →
  ∃ a', users (serve v st req).1 !! id = Some a' ∧ isOwner a' = isOwner a.
Proof.
  intros Hl. unfold serve.
  destruct (limiter _ _ _) as [ok ws]. destruct ok; simpl; [|eauto].
  by apply (handle_keeps_isOwner v (with_windows ws st) req).
Qed.

(** *** Title generation *)

Lemma trimStart_length s : length (trimStart s) ≤ length s.
Proof.
  induction s as [|c s IH]; simpl; [done|].
  destruct (is_whitespace c); simpl; lia.
Qed.

Lemma trim_length s : length (trim s) ≤ length s.
Proof.
  unfold trim, trimEnd. rewrite length_reverse.
  etrans; [apply trimStart_length|]. rewrite length_reverse.
  apply trimStart_length.
Qed.

Lemma handle_generate_titles st req tr user :
  route req = PostGenerateTitles tr →
  requireAuth (now req) (authorization req) = Some user →
  handle Rev2 st req = (st, generate_titles tr (upstream req)).
Proof.
  intros Hr Ha. unfold handle, handle_v2, authenticated. by rewrite Hr, Ha.
Qed.

(** C9 (as amended).  An authenticated POST /api/generate-titles is answered
    400 when the transcript is missing or when its length after trimming
    surrounding white space is below 20, hence for every transcript shorter
    than 20 characters; a transcript whose trimmed length is 20 or more goes
    to the completion call and is answered 200 with the titles when the call
    succeeds, 500 when it throws. *)
Theorem generate_titles_boundary st req tr user :
  route req = PostGenerateTitles tr →
  requireAuth (now req) (authorization req) = Some user →
  (length (trim (default [] tr)) < 20 →
   handle Rev2 st req
     = (st, respond 400 (BError "Transcript is too short or missing.")))
  ∧ (length (default [] tr) < 20 →
     handle Rev2 st req
       = (st, respond 400 (BError "Transcript is too short or missing.")))
  ∧ (20 ≤ length (trim (default [] tr)) →
     handle Rev2 st req
       = (st, match upstream req with
              | Some titles => respond 200 (BTitles titles)
              | None => respond 500 (BError "Failed to generate titles")
              end)).
Proof.
  intros Hr Ha. rewrite (handle_generate_titles _ _ _ _ Hr Ha).
  unfold generate_titles.
  assert (length (trim (default [] tr)) < 20 →
          falsy tr || (length (trim (default [] tr)) <? 20) = true) as Hshort.
  { intros H. apply orb_true_iff. right. by apply Nat.ltb_lt. }
  split; [|split].
  - intros H. by rewrite Hshort.
  - intros H. rewrite Hshort; [done|].
    pose proof (trim_length (default [] tr)). lia.
  - intros H.
    assert (falsy tr = false) as ->.
    { destruct tr as [[|c s]|]; simpl in *; try done; unfold trim in H;
        simpl in H; lia. }
    simpl. by rewrite (proj2 (Nat.ltb_ge _ _) H).
Qed.

(** *** Admission control *)

Lemma limiter_same_window t c (ws : gmap string Window) w :
  ws !! c = Some w →
  (t < windowStart w + windowMs)%N →
  limiter t c ws
    = if decide (count w < max)
      then (true, <[c := {| count := S (count w); windowStart := windowStart w |}]> ws)
      else (false, <[c := w]> ws).
Proof.
  intros Hl Ht. unfold limiter, current_window. rewrite Hl.
  destruct (decide (windowStart w + windowMs ≤ t)%N); [lia|done].
Qed.

Lemma limiter_other t c c' (ws : gmap string Window) :
  c' ≠ c → (limiter t c' ws).2 !! c = ws !! c.
Proof.
  intros Hne. unfold limiter. case_decide; simpl; by rewrite lookup_insert_ne.
Qed.

Lemma handle_windows v st req : windows (handle v st req).1 = windows st.
Proof.
  destruct v; unfold handle, handle_v1, handle_v2, authenticated;
    destruct (route req);
    try destruct (requireAuth (now req) (authorization req)) as [user|];
    simpl; try done;
    unfold register_v1, register_v2, generate_chapters, toggle_admin_v1,
      toggle_admin_v2, delete_transcript, delete_history, put_profile;
    repeat case_match; done.
Qed.

(** No route answers 429: that status is the limiter's. *)
Lemma handle_not_limited v st req : status (handle v st req).2 ≠ 429.
Proof.
  destruct v; unfold handle, handle_v1, handle_v2, authenticated;
    destruct (route req);
    try destruct (requireAuth (now req) (authorization req)) as [user|];
    simpl; try done;
    unfold register_v1, register_v2, login_v1, login_v2, generate_chapters,
      toggle_admin_v1, toggle_admin_v2, delete_transcript, delete_history,
      get_profile, put_profile, generate_titles, requireAdmin;
    repeat case_match; simplify_eq/=; done.
Qed.

(** [serve] stores the window the limiter computed, and answers 429 exactly
    when the limiter refuses. *)
Lemma serve_limiter v st req :
  windows (serve v st req).1 = (limiter (now req) (ip req) (windows st)).2
  ∧ (if (limiter (now req) (ip req) (windows st)).1
     then status (serve v st req).2 ≠ 429
     else (serve v st req).2 = too_many_requests).
Proof.
  unfold serve. destruct (limiter _ _ _) as [[] ws]; simpl; [|done].
  split; [apply (handle_windows v (with_windows ws st)) | apply handle_not_limited].
Qed.

Lemma app_parsed v st req :
  windows (app v st (Parsed req)).1 = (limiter (now req) (ip req) (windows st)).2
  ∧ reached_route (app v st (Parsed req)).2
    = (limiter (now req) (ip req) (windows st)).1
  ∧ ((limiter (now req) (ip req) (windows st)).1 = false →
     (app v st (Parsed req)).2 = Answered too_many_requests).
Proof.
  destruct (serve_limiter v st req) as [Hw Hr]. simpl.
  split; [done|].
  destruct (limiter _ _ _).1.
  - split; [|done]. apply negb_true_iff, Nat.eqb_neq. done.
  - rewrite Hr. done.
Qed.

Lemma app_run_cons v st inb inbs :
  app_run v st (inb :: inbs)
    = ((app v st inb).2 :: (app_run v (app v st inb).1 inbs).1,
       (app_run v (app v st inb).1 inbs).2).
Proof.
  simpl. destruct (app v st inb) as [st1 o]. simpl.
  by destruct (app_run v st1 inbs).
Qed.

(** While the requests of [c] arrive inside its window, the stored count of
    the window grows by the number of them that were passed on to the routes
    and stays within the ceiling. *)
Lemma app_run_in_window v c inbs :
  ∀ st w,
    windows st !! c = Some w →
    count w ≤ max →
    Forall (arrives_before c (windowStart w + windowMs)) inbs →
    windows (app_run v st inbs).2 !! c
      = Some {| count := count w + served_of c inbs (app_run v st inbs).1;
                windowStart := windowStart w |}
    ∧ count w + served_of c inbs (app_run v st inbs).1 ≤ max.
Proof.
  induction inbs as [|inb inbs IH]; intros st w Hl Hc Hin.
  - simpl. rewrite Nat.add_0_r. split; [|done]. by destruct w.
  - apply Forall_cons in Hin as [Ht Hin].
    rewrite app_run_cons. cbn [fst snd served_of].
    destruct inb as [req|code].
    + destruct (app_parsed v st req) as (Hw & Hreach & _).
      rewrite Hreach. simpl in Ht.
      destruct (decide (ip req = c)) as [<-|Hne].
      * rewrite (limiter_same_window _ _ _ _ Hl (Ht eq_refl)) in Hw |- *.
        destruct (decide (count w < max)) as [Hlt|Hge]; cbn [fst snd] in *.
        -- destruct (IH (app v st (Parsed req)).1
                        {| count := S (count w); windowStart := windowStart w |})
             as [IH1 IH2];
             [rewrite Hw; apply lookup_insert_eq | simpl; lia | done |].
           cbn [count windowStart] in IH1, IH2. rewrite IH1.
           split; [f_equal; f_equal; lia | lia].
        -- destruct (IH (app v st (Parsed req)).1 w) as [IH1 IH2];
             [rewrite Hw; apply lookup_insert_eq | done | done |].
           rewrite IH1. split; [f_equal; f_equal; lia | lia].
      * destruct (IH (app v st (Parsed req)).1 w) as [IH1 IH2];
          [rewrite Hw; by rewrite limiter_other | done | done |].
        rewrite IH1. split; [done | lia].
    + simpl. by apply IH.
Qed.

(** C8.  Take a request of a client that opens a rate window, and any
    arrivals after it: requests of this and of other clients, to any route and
    with any outcome, and bodies the parser refuses; those of the client
    arrive inside the 60 second window.  At least one and at most 10 of the
    client's requests are passed on to the routes, and the window the server
    holds for the client has their number as its count.  Once 10 are passed,
    a further request of the client inside the window is answered with the
    429 "Too many requests" response; a request that arrives when the window
    has elapsed is passed on and the server then holds a window with count 1
    that starts at that request. *)
Theorem rate_limit_window v st req0 inbs :
  opens_window (now req0) (ip req0) (windows st) →
  Forall (arrives_before (ip req0) (now req0 + windowMs)) inbs →
  let run := app_run v st (Parsed req0 :: inbs) in
  let n := served_of (ip req0) (Parsed req0 :: inbs) run.1 in
  1 ≤ n ≤ max
  ∧ windows run.2 !! ip req0 = Some {| count := n; windowStart := now req0 |}
  ∧ (∀ req,
        ip req = ip req0 → (now req < now req0 + windowMs)%N → n = max →
        (app v run.2 (Parsed req)).2 = Answered too_many_requests)
  ∧ (∀ req,
        ip req = ip req0 → (now req0 + windowMs ≤ now req)%N →
        reached_route (app v run.2 (Parsed req)).2 = true
        ∧ windows (app v run.2 (Parsed req)).1 !! ip req0
          = Some {| count := 1; windowStart := now req |}).
Proof.
  intros Hopen Hin run n.
  assert (limiter (now req0) (ip req0) (windows st)
          = (true, <[ip req0 := {| count := 1; windowStart := now req0 |}]>
                     (windows st))) as Hfirst.
  { unfold limiter. by rewrite Hopen. }
  destruct (app_parsed v st req0) as (Hw0 & Hreach0 & _).
  rewrite Hfirst in Hw0, Hreach0. cbn [fst snd] in Hw0, Hreach0.
  destruct (app_run_in_window v (ip req0) inbs (app v st (Parsed req0)).1
              {| count := 1; windowStart := now req0 |})
    as [Hw Hn]; [rewrite Hw0; apply lookup_insert_eq | unfold max; simpl; lia
                | done |].
  cbn [count windowStart] in Hw, Hn.
  assert (windows run.2 !! ip req0 = Some {| count := n; windowStart := now req0 |}
          ∧ n = S (served_of (ip req0) inbs
                     (app_run v (app v st (Parsed req0)).1 inbs).1))
    as [Hrun Hcount].
  { unfold n, run. rewrite app_run_cons. cbn [fst snd served_of].
    rewrite decide_True by done. rewrite Hreach0. by rewrite Hw. }
  split; [lia|]. split; [done|]. split.
  - intros req Hip Hnow Hmax.
    destruct (app_parsed v run.2 req) as (_ & _ & Hrej). apply Hrej.
    rewrite Hip. rewrite (limiter_same_window _ _ _ _ Hrun) by done.
    cbn [count]. destruct (decide (n < max)); [lia|done].
  - intros req Hip Ht.
    destruct (app_parsed v run.2 req) as (Hw' & Hreach' & _).
    assert (limiter (now req) (ip req) (windows run.2)
            = (true, <[ip req0 := {| count := 1; windowStart := now req |}]>
                       (windows run.2))) as Hlim.
    { rewrite Hip. unfold limiter, current_window. rewrite Hrun.
      cbn [windowStart].
      destruct (decide (now req0 + windowMs ≤ now req)%N); [done|lia]. }
    rewrite Hlim in Hw', Hreach'. cbn [fst snd] in Hw', Hreach'.
    split; [done|]. rewrite Hw'. apply lookup_insert_eq.
Qed.

(** ** Further properties of the handlers *)

(** *** What a request can do to the collections *)

Lemma serve_cases v st req :
  serve v st req
    = handle v (with_windows (limiter (now req) (ip req) (windows st)).2 st) req
  ∨ serve v st req
    = (with_windows (limiter (now req) (ip req) (windows st)).2 st,
       too_many_requests).
Proof.
  unfold serve. destruct (limiter _ _ _) as [[] ws]; simpl; auto.
Qed.

Lemma handle_users_cases v st req :
  users (handle v st req).1 = users st
  ∨ (∃ e pw, route req = PostRegister e pw
       ∧ findOne e (users st) = None
       ∧ users (handle v st req).1 = create e (bcrypt_hash pw) (users st))
  ∨ (∃ target user u, route req = PutToggleAdmin target
       ∧ requireAuth (now req) (authorization req) = Some user
       ∧ users st !! target = Some u
       ∧ users (handle v st req).1
         = <[target := set_isAdmin (negb (isAdmin u)) u]> (users st))
  ∨ (∃ n b user u, route req = PutProfile n b
       ∧ requireAuth (now req) (authorization req) = Some user
       ∧ users st !! userId user = Some u
       ∧ users (handle v st req).1
         = <[userId user := set_profile n b u]> (users st)).
Proof.
  destruct v; unfold handle, handle_v1, handle_v2, authenticated;
    destruct (route req) eqn:Hr;
    try destruct (requireAuth (now req) (authorization req)) as [user|] eqn:Ha;
    simpl; try (by left);
    unfold register_v1, register_v2, generate_chapters, toggle_admin_v1,
      toggle_admin_v2, delete_transcript, delete_history, put_profile, save;
    repeat case_match; simpl; try (by left).
  all: first [ right; left; by eauto 10
             | right; right; left; by eauto 10
             | right; right; right; by eauto 10 ].
Qed.

Lemma serve_users_cases v st req :
  users (serve v st req).1 = users st
  ∨ (∃ e pw, route req = PostRegister e pw
       ∧ findOne e (users st) = None
       ∧ users (serve v st req).1 = create e (bcrypt_hash pw) (users st))
  ∨ (∃ target user u, route req = PutToggleAdmin target
       ∧ requireAuth (now req) (authorization req) = Some user
       ∧ users st !! target = Some u
       ∧ users (serve v st req).1
         = <[target := set_isAdmin (negb (isAdmin u)) u]> (users st))
  ∨ (∃ n b user u, route req = PutProfile n b
       ∧ requireAuth (now req) (authorization req) = Some user
       ∧ users st !! userId user = Some u
       ∧ users (serve v st req).1
         = <[userId user := set_profile n b u]> (users st)).
Proof.
  destruct (serve_cases v st req) as [-> | ->]; [|by left].
  apply (handle_users_cases v (with_windows _ st) req).
Qed.

(** *** Registration followed by login *)

Lemma register_users v st req e pw :
  route req = PostRegister e pw →
  findOne e (users st) = None →
  users (handle v st req).1 = create e (bcrypt_hash pw) (users st).
Proof.
  intros Hr Hn. destruct v; unfold handle, handle_v1, handle_v2; rewrite Hr;
    unfold register_v1, register_v2; rewrite Hn; simpl; [done|].
  by rewrite (findOne_create _ _ _ Hn).
Qed.

(** X2.  In both revisions, a registration with an email no account has,
    followed by a login with the same email and password, is answered 200
    with a token for the account the registration created, a token that
    [requireAuth] accepts at that time, provided the password verifies against
    its own hash. *)
Theorem register_then_login v st req1 req2 e pw :
  route req1 = PostRegister e pw →
  route req2 = PostLogin e pw →
  findOne e (users st) = None →
  bcrypt_compare pw (bcrypt_hash pw) = true →
  ∃ id tok,
    (handle v (handle v st req1).1 req2).2 = respond 200 (BToken tok)
    ∧ users st !! id = None
    ∧ email <$> users (handle v st req1).1 !! id = Some e
    ∧ userId (payload tok) = id
    ∧ requireAuth (now req2) (Some tok) = Some (payload tok).
Proof.
  intros Hr1 Hr2 Hn Hc.
  pose proof (register_users v st req1 e pw Hr1 Hn) as Hus.
  pose proof (findOne_create e (bcrypt_hash pw) _ Hn) as Hf.
  exists (fresh (dom (users st))).
  set (st1 := (handle v st req1).1) in *. rewrite <- Hus in Hf.
  assert (email <$> users st1 !! fresh (dom (users st)) = Some e) as Hl.
  { rewrite Hus. unfold create. by rewrite lookup_insert_eq. }
  clearbody st1.
  destruct v; unfold handle, handle_v1, handle_v2; rewrite Hr2; simpl;
    unfold login_v1, login_v2; rewrite Hf; simpl; rewrite Hc; simpl;
    eexists; (split; [reflexivity|]);
    (split; [apply not_elem_of_dom, is_fresh|]);
    (split; [done|]); (split; [done|]); apply jwt_verify_sign.
Qed.

(** X3.  A login answered 200, in any of the three revisions of the handler,
    carries a token for an account that is stored under the token's
    [userId], has the email of the request and a hash the password verifies
    against; the token is one [requireAuth] accepts at that time, and the
    role flags it carries are those of the stored account. *)
Theorem login_sound st t e pw tok :
  login_v0 st t e pw = respond 200 (BToken tok)
  ∨ login_v1 st t e pw = respond 200 (BToken tok)
  ∨ login_v2 st t e pw = respond 200 (BToken tok) →
  ∃ u, users st !! userId (payload tok) = Some u
       ∧ email u = e
       ∧ bcrypt_compare pw (password u) = true
       ∧ requireAuth t (Some tok) = Some (payload tok)
       ∧ (∀ b, claim_isAdmin (payload tok) = Some b → b = isAdmin u)
       ∧ (∀ b, claim_isOwner (payload tok) = Some b → b = isOwner u).
Proof.
  unfold login_v0, login_v1, login_v2.
  destruct (findOne e (users st)) as [[id u]|] eqn:Hf;
    [|intros [|[|]]; discriminate].
  apply findOne_Some in Hf as [Hl He].
  destruct (bcrypt_compare pw (password u)) eqn:Hc; simpl;
    [|intros [|[|]]; discriminate].
  rewrite !orb_false_r.
  intros [H|[H|H]]; injection H as <-; exists u; simpl;
    (split; [done|]); (split; [done|]); (split; [done|]);
    (split; [apply jwt_verify_sign|]); split; intros b [=]; done.
Qed.

(** *** Roles *)

(** X4.  A role mutation takes effect on the admin gate at once: after a
    toggle-admin call that passes the actor check on an existing target that
    is not an owner, a GET /api/admin/users authenticated as the target is
    answered 403 if the target was an admin before the call and with the
    listing if it was not, whatever the target's token claims. *)
Theorem toggle_admin_takes_effect v st req req' target actor user' u :
  route req = PutToggleAdmin target →
  requireAuth (now req) (authorization req) = Some actor →
  users st !! target = Some u →
  isOwner u = false →
  passes_actor_check v st actor = true →
  route req' = GetAdminUsers →
  requireAuth (now req') (authorization req') = Some user' →
  userId user' = target →
  (handle v (handle v st req).1 req').2
    = if isAdmin u
      then respond 403 (BMessage "Access denied. Admins only.")
      else admin_users (handle v st req).1.
Proof.
  intros Hr Ha Ht Ho Hp Hr' Ha' Hid.
  destruct (toggle_admin_step v st req target actor u) as [Hs _]; try done.
  rewrite (handle_admin_users _ _ _ _ Hr' Ha').
  unfold requireAdmin. rewrite Hid, Hs. simpl. rewrite lookup_insert_eq. simpl.
  by destruct (isAdmin u).
Qed.

(** X5.  Every route but registration and login sits behind [requireAuth]:
    a request to one of them without a token the verifier accepts is answered
    by the authentication check (or, for a route the revision does not mount,
    by the 404 of the router) and changes nothing. *)
Theorem protected_routes_need_token v st req :
  is_public (route req) = false →
  requireAuth (now req) (authorization req) = None →
  handle v st req
    = (st, if routed v (route req) then unauthenticated else no_route).
Proof.
  intros Hp Ha.
  destruct v; unfold handle, handle_v1, handle_v2, authenticated;
    destruct (route req); simpl in *; try discriminate; by rewrite ?Ha.
Qed.

(** X6.  The actor check comes first.  An actor that fails it gets the same
    403 whatever the target, existing or not, and nothing changes; an actor
    that passes it and names a target that does not exist gets 404 "User not
    found" and nothing changes. *)
Theorem toggle_admin_check_order v st req target user :
  route req = PutToggleAdmin target →
  requireAuth (now req) (authorization req) = Some user →
  (passes_actor_check v st user = false →
   (handle v st req).1 = st
   ∧ status (handle v st req).2 = 403
   ∧ ∀ req' target',
       route req' = PutToggleAdmin target' →
       requireAuth (now req') (authorization req') = Some user →
       handle v st req' = handle v st req)
  ∧ (passes_actor_check v st user = true →
     users st !! target = None →
     handle v st req = (st, respond 404 (BError "User not found"))).
Proof.
  intros Hr Ha. rewrite (handle_toggle _ _ _ _ _ Hr Ha). split.
  - intros Hp.
    assert (∀ target',
              match v with
              | Rev1 => toggle_admin_v1 st user target'
              | Rev2 => toggle_admin_v2 st user target'
              end
              = (st, respond 403
                       (BError match v with
                               | Rev1 => "Forbidden: Admins only"
                               | Rev2 => "Forbidden: Only owner can manage admin roles"
                               end))) as Hall.
    { intros target'. destruct v; unfold toggle_admin_v1, toggle_admin_v2;
        cbn [passes_actor_check] in Hp; by rewrite Hp. }
    rewrite Hall. split; [done|]. split; [done|].
    intros req' target' Hr' Ha'.
    by rewrite (handle_toggle _ _ _ _ _ Hr' Ha'), Hall.
  - intros Hp Hn. destruct v; unfold toggle_admin_v1, toggle_admin_v2;
      cbn [passes_actor_check] in Hp; by rewrite Hp, Hn.
Qed.

(** X7.  In the second revision a toggle-admin call answered 200 never acts
    on the actor's own account: the target differs from the actor, the
    actor's record is as before, and the actor still passes the actor check
    afterwards. *)
Theorem owner_keeps_control st req target user :
  route req = PutToggleAdmin target →
  requireAuth (now req) (authorization req) = Some user →
  status (handle Rev2 st req).2 = 200 →
  target ≠ userId user
  ∧ users (handle Rev2 st req).1 !! userId user = users st !! userId user
  ∧ passes_actor_check Rev2 (handle Rev2 st req).1 user = true.
Proof.
  intros Hr Ha. rewrite (handle_toggle_v2 _ _ _ _ Hr Ha).
  unfold toggle_admin_v2, passes_actor_check.
  destruct (users st !! userId user) as [a|] eqn:Hactor; simpl; [|done].
  destruct (isOwner a) eqn:Hoa; simpl; [|done].
  destruct (users st !! target) as [u|] eqn:Ht; simpl; [|done].
  destruct (isOwner u) eqn:Hou; simpl; [done|]. intros _.
  assert (target ≠ userId user) as Hne by (intros ->; congruence).
  unfold save. rewrite lookup_insert_ne by done. by rewrite Hactor.
Qed.

Lemma serve_isAdmin_kept v st req id a :
  users st !! id = Some a →
  route req ≠ PutToggleAdmin id →
  ∃ a', users (serve v st req).1 !! id = Some a' ∧ isAdmin a' = isAdmin a.
Proof.
  intros Hl Hr.
  destruct (serve_users_cases v st req)
    as [-> | [(e & pw & _ & Hn & ->) | [(t & user & u & Hr' & _ & Ht & ->)
       | (n & b & user & u & _ & _ & Hu & ->)]]].
  - eauto.
  - eauto using create_fresh.
  - rewrite lookup_insert_ne by congruence. eauto.
  - destruct (decide (userId user = id)) as [<-|Hne].
    + rewrite lookup_insert_eq. simplify_eq. eauto.
    + rewrite lookup_insert_ne by done. eauto.
Qed.

Lemma serve_all_isAdmin_kept v reqs :
  ∀ st id a,
    users st !! id = Some a →
    Forall (λ req, route req ≠ PutToggleAdmin id) reqs →
    ∃ a', users (serve_all v st reqs) !! id = Some a' ∧ isAdmin a' = isAdmin a.
Proof.
  induction reqs as [|req reqs IH]; intros st id a Hl Hall; [simpl; eauto|].
  apply Forall_cons in Hall as [Hr Hall].
  destruct (serve_isAdmin_kept v st req id a Hl Hr) as (a1 & Hl1 & Ha1).
  destruct (IH (serve v st req).1 id a1 Hl1 Hall) as (a2 & Hl2 & Ha2).
  exists a2. split; [done|congruence].
Qed.

(** X8.  In the first revision an admin can name itself as the target: the
    call is answered 200 and clears the admin's own [isAdmin].  From then on,
    whatever requests are served in between, as long as none of them is a
    toggle-admin naming that account, every toggle-admin call of the account
    is answered 403 "Forbidden: Admins only" and changes nothing. *)
Theorem admin_self_demotion_v1 st req user u :
  route req = PutToggleAdmin (userId user) →
  requireAuth (now req) (authorization req) = Some user →
  users st !! userId user = Some u →
  isAdmin u = true →
  status (handle Rev1 st req).2 = 200
  ∧ isAdmin <$> users (handle Rev1 st req).1 !! userId user = Some false
  ∧ ∀ reqs req' target' user',
      Forall (λ r, route r ≠ PutToggleAdmin (userId user)) reqs →
      route req' = PutToggleAdmin target' →
      requireAuth (now req') (authorization req') = Some user' →
      userId user' = userId user →
      handle Rev1 (serve_all Rev1 (handle Rev1 st req).1 reqs) req'
        = (serve_all Rev1 (handle Rev1 st req).1 reqs,
           respond 403 (BError "Forbidden: Admins only")).
Proof.
  intros Hr Ha Hl Hadm. rewrite (handle_toggle_v1 _ _ _ _ Hr Ha).
  unfold toggle_admin_v1. rewrite Hl. simpl. rewrite Hadm. simpl.
  split; [done|]. split; [unfold save; by rewrite lookup_insert_eq|].
  intros reqs req' target' user' Hall Hr' Ha' Hid.
  set (st1 := with_users _ st).
  assert (users st1 !! userId user = Some (set_isAdmin false u)) as Hl1
    by (unfold st1, save; simpl; apply lookup_insert_eq).
  destruct (serve_all_isAdmin_kept Rev1 reqs st1 (userId user) _ Hl1 Hall)
    as (a' & Hl' & Ha'').
  rewrite (handle_toggle_v1 _ _ _ _ Hr' Ha'). unfold toggle_admin_v1.
  rewrite Hid, Hl'. simpl. simpl in Ha''. by rewrite Ha''.
Qed.

(** X9.  Only toggle-admin answers with a password hash: if the body of a
    response holds a user document with its password field, the request was
    a PUT /api/admin/toggle-admin/:userId. *)
Theorem only_toggle_admin_exposes_hash v st req :
  body_has_password (body (serve v st req).2) = true →
  ∃ target, route req = PutToggleAdmin target.
Proof.
  destruct (serve_cases v st req) as [-> | ->]; [|done].
  generalize (with_windows (limiter (now req) (ip req) (windows st)).2 st).
  intros st'.
  assert (∀ l : list (nat * Account),
            existsb has_password ((λ d, select_minus_password d.1 d.2) <$> l)
            = false) as Hlist
    by (induction l; simpl; done).
  destruct v; unfold handle, handle_v1, handle_v2, authenticated;
    destruct (route req) eqn:Hr; eauto;
    try destruct (requireAuth (now req) (authorization req)) as [user|];
    simpl; try done;
    unfold register_v1, register_v2, login_v1, login_v2, generate_chapters,
      delete_transcript, delete_history, put_profile, get_profile,
      generate_titles, admin_users, requireAdmin;
    repeat case_match; simplify_eq/=; try done;
    by rewrite Hlist.
Qed.

(** X10.  [isAdmin] changes through toggle-admin alone: a request that is
    not a toggle-admin naming the account leaves the account in place with the
    [isAdmin] and the email it had. *)
Theorem isAdmin_changes_only_by_toggle v st req id a :
  users st !! id = Some a →
  route req ≠ PutToggleAdmin id →
  ∃ a', users (serve v st req).1 !! id = Some a'
        ∧ isAdmin a' = isAdmin a ∧ email a' = email a.
Proof.
  intros Hl Hr.
  destruct (serve_users_cases v st req)
    as [-> | [(e & pw & _ & Hn & ->) | [(t & user & u & Hr' & _ & Ht & ->)
       | (n & b & user & u & _ & _ & Hu & ->)]]].
  - eauto.
  - eauto using create_fresh.
  - rewrite lookup_insert_ne by congruence. eauto.
  - destruct (decide (userId user = id)) as [<-|Hne].
    + rewrite lookup_insert_eq. simplify_eq. eauto.
    + rewrite lookup_insert_ne by done. eauto.
Qed.

(** X11.  The display name and the biography of an account change through
    that account's own PUT /api/profile alone: any other request leaves the
    account in place with the name and the biography it had. *)
Theorem profile_changes_only_by_own_update v st req id a :
  users st !! id = Some a →
  (∀ n b user,
     route req = PutProfile n b →
     requireAuth (now req) (authorization req) = Some user →
     userId user ≠ id) →
  ∃ a', users (serve v st req).1 !! id = Some a'
        ∧ name a' = name a ∧ bio a' = bio a.
Proof.
  intros Hl Hr.
  destruct (serve_users_cases v st req)
    as [-> | [(e & pw & _ & Hn & ->) | [(t & user & u & _ & _ & Ht & ->)
       | (n & b & user & u & Hr' & Ha' & Hu & ->)]]].
  - eauto.
  - eauto using create_fresh.
  - destruct (decide (t = id)) as [<-|Hne].
    + rewrite lookup_insert_eq. simplify_eq. eauto.
    + rewrite lookup_insert_ne by done. eauto.
  - rewrite lookup_insert_ne by eauto. eauto.
Qed.

Lemma elem_of_find_all {A} (m : gmap nat A) id x :
  (id, x) ∈ find_all m ↔ m !! id = Some x.
Proof.
  unfold find_all. rewrite merge_sort_Permutation. apply elem_of_map_to_list.
Qed.

(** X12.  A GET /api/admin/users answered 200 was made by an account whose
    stored record is an admin, and lists the stored accounts, all of them and
    nothing else, each without its password. *)
Theorem admin_users_lists_every_account v st req user docs :
  route req = GetAdminUsers →
  requireAuth (now req) (authorization req) = Some user →
  (handle v st req).2 = respond 200 (BUsers docs) →
  from_option isAdmin false (users st !! userId user) = true
  ∧ ∀ d, d ∈ docs ↔ ∃ id u, users st !! id = Some u
                            ∧ d = select_minus_password id u.
Proof.
  intros Hr Ha. rewrite (handle_admin_users _ _ _ _ Hr Ha). unfold requireAdmin.
  destruct (users st !! userId user) as [a|]; simpl; [|done].
  destruct (isAdmin a); simpl; [|done].
  unfold admin_users. intros [= <-]. split; [done|].
  intros d. rewrite list_elem_of_fmap. split.
  - intros ([id u] & -> & Hin). apply elem_of_find_all in Hin. eauto.
  - intros (id & u & Hl & ->). exists (id, u). split; [done|].
    by apply elem_of_find_all.
Qed.

(** *** Transcripts *)

#[local] Instance newer_total : Total newer.
Proof.
  intros a b. unfold newer.
  destruct (total (≤)%N (createdAt a.2) (createdAt b.2)); auto.
Qed.

Lemma elem_of_find_transcripts uid (ts : gmap nat Transcript) id t :
  (id, t) ∈ find_transcripts uid ts ↔ ts !! id = Some t ∧ t_userId t = uid.
Proof.
  unfold find_transcripts.
  rewrite merge_sort_Permutation, list_elem_of_filter, elem_of_find_all.
  simpl. tauto.
Qed.

Lemma find_transcripts_NoDup uid (ts : gmap nat Transcript) :
  NoDup (find_transcripts uid ts).
Proof.
  unfold find_transcripts, find_all. rewrite merge_sort_Permutation.
  apply NoDup_filter. rewrite merge_sort_Permutation. apply NoDup_map_to_list.
Qed.

Lemma find_transcripts_Sorted uid (ts : gmap nat Transcript) :
  Sorted newer (find_transcripts uid ts).
Proof. unfold find_transcripts. apply (Sorted_merge_sort newer). Qed.

(** X13.  GET /api/transcripts (first revision) and GET /api/history (second
    revision) answer 200 with the caller's transcripts: each stored transcript
    whose [userId] is the caller's exactly once, no transcript of anyone else,
    newest first. *)
Theorem history_is_own_newest_first st req user :
  requireAuth (now req) (authorization req) = Some user →
  ∃ docs,
    (∀ id t, (id, t) ∈ docs
             ↔ transcripts st !! id = Some t ∧ t_userId t = userId user)
    ∧ NoDup docs
    ∧ Sorted newer docs
    ∧ (route req = GetTranscripts →
       handle Rev1 st req = (st, respond 200 (BTranscripts docs)))
    ∧ (route req = GetHistory →
       handle Rev2 st req = (st, respond 200 (BHistory (select_history <$> docs)))).
Proof.
  intros Ha. exists (find_transcripts (userId user) (transcripts st)).
  split; [intros; apply elem_of_find_transcripts|].
  split; [apply find_transcripts_NoDup|].
  split; [apply find_transcripts_Sorted|].
  split; intros Hr; unfold handle, handle_v1, handle_v2, authenticated;
    by rewrite Hr, Ha.
Qed.

Lemma handle_delete st req id user :
  route req = DeleteTranscript id ∨ route req = DeleteHistory id →
  requireAuth (now req) (authorization req) = Some user →
  handle Rev2 st req
    = match find_own_transcript id (userId user) (transcripts st) with
      | None =>
          (st, respond 404
                 (BMessage match route req with
                           | DeleteTranscript _ => "Transcript not found or unauthorized"
                           | _ => "Transcript not found"
                           end))
      | Some _ =>
          (with_transcripts (delete id (transcripts st)) st,
           respond 200
             (BMessage match route req with
                       | DeleteTranscript _ => "Transcript deleted"
                       | _ => "Transcript deleted successfully"
                       end))
      end.
Proof.
  intros [Hr|Hr] Ha; unfold handle, handle_v2, authenticated; rewrite Hr, Ha;
    unfold delete_transcript, delete_history;
    by destruct (find_own_transcript _ _ _).
Qed.

(** X14.  Deleting a transcript that does not exist and deleting one that
    belongs to another account get the same answer, on both delete routes: the
    route's 404 message, never a 403, and nothing is deleted. *)
Theorem delete_foreign_transcript_not_found st req id user :
  route req = DeleteTranscript id ∨ route req = DeleteHistory id →
  requireAuth (now req) (authorization req) = Some user →
  (∀ t, transcripts st !! id = Some t → t_userId t ≠ userId user) →
  handle Rev2 st req
    = (st, respond 404
             (BMessage match route req with
                       | DeleteTranscript _ => "Transcript not found or unauthorized"
                       | _ => "Transcript not found"
                       end)).
Proof.
  intros Hr Ha Hforeign. rewrite (handle_delete _ _ _ _ Hr Ha).
  unfold find_own_transcript.
  destruct (transcripts st !! id) as [t|] eqn:Ht; [|done].
  rewrite decide_False; [done|]. by apply Hforeign.
Qed.

Lemma handle_transcripts_cases v st req :
  transcripts (handle v st req).1 = transcripts st
  ∨ (∃ tr fmt user res, route req = PostGenerateChapters tr fmt
       ∧ requireAuth (now req) (authorization req) = Some user
       ∧ upstream req = Some res
       ∧ transcripts (handle v st req).1
         = <[fresh (dom (transcripts st)) :=
               {| text := tr; format := fmt; result := res;
                  t_userId := userId user; createdAt := now req |}]>
             (transcripts st))
  ∨ (∃ id user t, (route req = DeleteTranscript id ∨ route req = DeleteHistory id)
       ∧ requireAuth (now req) (authorization req) = Some user
       ∧ transcripts st !! id = Some t
       ∧ t_userId t = userId user
       ∧ transcripts (handle v st req).1 = delete id (transcripts st)).
Proof.
  destruct v; unfold handle, handle_v1, handle_v2, authenticated;
    destruct (route req) eqn:Hr;
    try destruct (requireAuth (now req) (authorization req)) as [user|] eqn:Ha;
    simpl; try (by left);
    unfold register_v1, register_v2, generate_chapters, toggle_admin_v1,
      toggle_admin_v2, delete_transcript, delete_history, put_profile,
      find_own_transcript;
    repeat case_match; simplify_eq/=; try (by left).
  all: first [ right; left; by eauto 10
             | right; right; by eauto 12 ].
Qed.

(** X15.  A stored transcript is never modified, and it goes away only
    through a delete route naming it in a request authenticated as its owner:
    after any request the transcript is stored unchanged under its id, or the
    request was such a delete and the id is free. *)
Theorem transcripts_immutable_and_owned v st req id t :
  transcripts st !! id = Some t →
  transcripts (serve v st req).1 !! id = Some t
  ∨ (transcripts (serve v st req).1 !! id = None
     ∧ (route req = DeleteTranscript id ∨ route req = DeleteHistory id)
     ∧ ∃ user, requireAuth (now req) (authorization req) = Some user
               ∧ userId user = t_userId t).
Proof.
  intros Hl. destruct (serve_cases v st req) as [-> | ->]; [|by left].
  destruct (handle_transcripts_cases v
              (with_windows (limiter (now req) (ip req) (windows st)).2 st) req)
    as [-> | [(tr & fmt & user & res & _ & _ & _ & ->)
       | (id' & user & t' & Hr & Ha & Ht' & Hown & ->)]]; simpl in *.
  - by left.
  - left. rewrite lookup_insert_ne; [done|].
    intros <-. apply (is_fresh (dom (transcripts st))), elem_of_dom. eauto.
  - destruct (decide (id' = id)) as [->|Hne].
    + right. rewrite lookup_delete_eq. split; [done|]. split; [done|].
      exists user. split; [done|]. congruence.
    + left. by rewrite lookup_delete_ne.
Qed.

Lemma handle_generate_chapters v st req tr fmt user :
  route req = PostGenerateChapters tr fmt →
  requireAuth (now req) (authorization req) = Some user →
  handle v st req = generate_chapters st (now req) user tr fmt (upstream req).
Proof.
  intros Hr Ha. destruct v; unfold handle, handle_v1, handle_v2, authenticated;
    by rewrite Hr, Ha.
Qed.

(** X16.  A generate-chapters request whose completion call succeeds is
    answered 200 with the chapters and stores one new transcript, under an
    id that was free: the transcript holds the text, the format and the
    result, belongs to the caller and shows in the caller's history; the
    transcripts stored before are all kept and no account changes. *)
Theorem generate_chapters_then_history v st req tr fmt user res :
  route req = PostGenerateChapters tr fmt →
  requireAuth (now req) (authorization req) = Some user →
  upstream req = Some res →
  ∃ id,
    transcripts st !! id = None
    ∧ (handle v st req).2 = respond 200 (BChapters res)
    ∧ users (handle v st req).1 = users st
    ∧ (id, {| text := tr; format := fmt; result := res;
              t_userId := userId user; createdAt := now req |})
      ∈ find_transcripts (userId user) (transcripts (handle v st req).1)
    ∧ ∀ id' t, transcripts st !! id' = Some t →
               transcripts (handle v st req).1 !! id' = Some t.
Proof.
  intros Hr Ha Hup. rewrite (handle_generate_chapters _ _ _ _ _ _ Hr Ha).
  unfold generate_chapters. rewrite Hup. simpl.
  assert (transcripts st !! fresh (dom (transcripts st)) = None) as Hfresh
    by apply not_elem_of_dom, is_fresh.
  exists (fresh (dom (transcripts st))).
  split; [done|]. split; [done|]. split; [done|]. split.
  - apply elem_of_find_transcripts. by rewrite lookup_insert_eq.
  - intros id' t Hl. rewrite lookup_insert_ne; [done|]. congruence.
Qed.

(** X17.  Generating chapters and then deleting the transcript that this
    stored, by either delete route and as the same account, leaves the state
    as it was before the two requests. *)
Theorem generate_then_delete st req req' tr fmt user user' res id :
  route req = PostGenerateChapters tr fmt →
  requireAuth (now req) (authorization req) = Some user →
  upstream req = Some res →
  transcripts st !! id = None →
  is_Some (transcripts (handle Rev2 st req).1 !! id) →
  route req' = DeleteTranscript id ∨ route req' = DeleteHistory id →
  requireAuth (now req') (authorization req') = Some user' →
  userId user' = userId user →
  (handle Rev2 (handle Rev2 st req).1 req').1 = st
  ∧ status (handle Rev2 (handle Rev2 st req).1 req').2 = 200.
Proof.
  intros Hr Ha Hup Hnone Hsome Hr' Ha' Hid.
  rewrite (handle_delete _ _ _ _ Hr' Ha').
  rewrite (handle_generate_chapters _ _ _ _ _ _ Hr Ha) in *.
  unfold generate_chapters in *. rewrite Hup in *. simpl in *.
  assert (id = fresh (dom (transcripts st))) as ->.
  { destruct (decide (fresh (dom (transcripts st)) = id)) as [|Hne]; [done|].
    rewrite lookup_insert_ne, Hnone in Hsome by done. by destruct Hsome. }
  unfold find_own_transcript. rewrite lookup_insert_eq. simpl.
  rewrite decide_True by done. simpl. split; [|done].
  unfold with_transcripts; simpl. rewrite delete_insert_eq, delete_id by done.
  by destruct st.
Qed.

(** *** Profiles *)

(** X18.  A profile update followed by a profile read as the same account:
    the update is answered 200 "Profile updated" and the read returns the
    account with the new name and biography, the email and role flags it
    had, and no password field. *)
Theorem profile_roundtrip st req req' n b user user' u :
  route req = PutProfile n b →
  requireAuth (now req) (authorization req) = Some user →
  users st !! userId user = Some u →
  route req' = GetProfile →
  requireAuth (now req') (authorization req') = Some user' →
  userId user' = userId user →
  (handle Rev2 st req).2 = respond 200 (BMessage "Profile updated")
  ∧ (handle Rev2 (handle Rev2 st req).1 req').2
    = respond 200
        (BUser {| j_id := userId user; j_email := email u; j_password := None;
                  j_isAdmin := isAdmin u; j_isOwner := isOwner u;
                  j_name := n; j_bio := b |}).
Proof.
  intros Hr Ha Hl Hr' Ha' Hid.
  assert (handle Rev2 st req
          = (with_users (save (userId user) (set_profile n b u) (users st)) st,
             respond 200 (BMessage "Profile updated"))) as ->.
  { unfold handle, handle_v2, authenticated. rewrite Hr, Ha.
    unfold put_profile. by rewrite Hl. }
  split; [done|].
  unfold handle, handle_v2, authenticated. rewrite Hr', Ha'. simpl.
  unfold get_profile, save. simpl. rewrite Hid, lookup_insert_eq. done.
Qed.

(** *** Title generation, continued *)

Lemma trimStart_whitespace s :
  Forall (λ c, is_whitespace c = true) s → trimStart s = [].
Proof.
  induction 1 as [|c s Hc _ IH]; simpl; [done|]. by rewrite Hc.
Qed.

Lemma trimStart_head s c :
  head s = Some c → is_whitespace c = false → trimStart s = s.
Proof. destruct s as [|c' s]; simpl; [done|]. intros [= ->] ->. done. Qed.

Lemma trim_no_surrounding_whitespace s c1 c2 :
  head s = Some c1 → is_whitespace c1 = false →
  last s = Some c2 → is_whitespace c2 = false →
  trim s = s.
Proof.
  intros Hh H1 Hl H2. unfold trim, trimEnd.
  rewrite (trimStart_head _ _ Hh H1).
  rewrite (trimStart_head (reverse s) c2); [apply reverse_involutive| |done].
  by rewrite head_reverse.
Qed.

(** X19.  A transcript made of white space alone is rejected with 400,
    however long it is. *)
Theorem generate_titles_whitespace_only st req s user :
  route req = PostGenerateTitles (Some s) →
  requireAuth (now req) (authorization req) = Some user →
  Forall (λ c, is_whitespace c = true) s →
  handle Rev2 st req
    = (st, respond 400 (BError "Transcript is too short or missing.")).
Proof.
  intros Hr Ha Hws. rewrite (handle_generate_titles _ _ _ _ Hr Ha).
  unfold generate_titles, trim, trimEnd. simpl.
  rewrite (trimStart_whitespace _ Hws). simpl. by rewrite orb_true_r.
Qed.

(** X20.  For a transcript that neither starts nor ends with white space the
    boundary is at 20 characters of the transcript as supplied: the request is
    answered 400 exactly when the transcript is shorter than 20. *)
Theorem generate_titles_exact_boundary st req s user c1 c2 :
  route req = PostGenerateTitles (Some s) →
  requireAuth (now req) (authorization req) = Some user →
  head s = Some c1 → is_whitespace c1 = false →
  last s = Some c2 → is_whitespace c2 = false →
  status (handle Rev2 st req).2 = 400 ↔ length s < 20.
Proof.
  intros Hr Ha Hh H1 Hl H2. rewrite (handle_generate_titles _ _ _ _ Hr Ha).
  assert (falsy (Some s) = false) as Hf by (by destruct s).
  unfold generate_titles. rewrite Hf.
  change (default [] (Some s)) with s.
  rewrite (trim_no_surrounding_whitespace _ _ _ Hh H1 Hl H2).
  cbn [orb]. destruct (length s <? 20) eqn:Hlen; cbn [snd status respond].
  - apply Nat.ltb_lt in Hlen. done.
  - apply Nat.ltb_ge in Hlen. split; [|lia].
    destruct (upstream req); simpl; discriminate.
Qed.

End Application.

(** ** The properties on the sample data *)

(** The first revision lets an admin who is not an owner through the actor
    check: the sample admin toggles the sample user and is answered 200, not
    403. *)
Lemma toggle_admin_actor_gate_counterexample :
  requireAuth sample_secret (now (sample_request (Some admin_token) (PutToggleAdmin 3)))
    (Some admin_token) = Some (payload admin_token)
  ∧ users sample_state !! userId (payload admin_token) = Some sample_admin
  ∧ isOwner sample_admin = false
  ∧ status (handle sample_hash sample_compare sample_secret Rev1 sample_state
              (sample_request (Some admin_token) (PutToggleAdmin 3))).2 = 200
  ∧ status (handle sample_hash sample_compare sample_secret Rev1 sample_state
              (sample_request (Some admin_token) (PutToggleAdmin 3))).2 ≠ 403
  ∧ users (handle sample_hash sample_compare sample_secret Rev1 sample_state
             (sample_request (Some admin_token) (PutToggleAdmin 3))).1 !! 3
    = Some (set_isAdmin true sample_user).
Proof. vm_compute. repeat split; discriminate. Qed.

Lemma toggle_admin_actor_gate_witness :
  handle sample_hash sample_compare sample_secret Rev2 sample_state
    (sample_request (Some admin_token) (PutToggleAdmin 3))
  = (sample_state,
     respond 403 (BError "Forbidden: Only owner can manage admin roles")).
Proof.
  assert (route (sample_request (Some admin_token) (PutToggleAdmin 3))
          = PutToggleAdmin 3) as Hr by reflexivity.
  assert (requireAuth sample_secret
            (now (sample_request (Some admin_token) (PutToggleAdmin 3)))
            (authorization (sample_request (Some admin_token) (PutToggleAdmin 3)))
          = Some (payload admin_token)) as Ha by (vm_compute; reflexivity).
  apply (proj1 (toggle_admin_actor_gate sample_hash sample_compare sample_secret
                  sample_state _ 3 _ Hr Ha)).
  vm_compute. reflexivity.
Defined.

(** The first revision lets an admin toggle an owner: the sample admin's call
    on the sample owner is answered 200 and clears the owner's [isAdmin]. *)
Lemma toggle_admin_owner_target_counterexample :
  users sample_state !! 1 = Some sample_owner
  ∧ isOwner sample_owner = true
  ∧ isAdmin sample_owner = true
  ∧ status (handle sample_hash sample_compare sample_secret Rev1 sample_state
              (sample_request (Some admin_token) (PutToggleAdmin 1))).2 = 200
  ∧ status (handle sample_hash sample_compare sample_secret Rev1 sample_state
              (sample_request (Some admin_token) (PutToggleAdmin 1))).2 ≠ 403
  ∧ isAdmin <$> users (handle sample_hash sample_compare sample_secret Rev1 sample_state
                         (sample_request (Some admin_token) (PutToggleAdmin 1))).1 !! 1
    = Some false.
Proof. vm_compute. repeat split; discriminate. Qed.

Lemma toggle_admin_owner_target_witness :
  status (handle sample_hash sample_compare sample_secret Rev2 sample_state
            (sample_request (Some owner_token) (PutToggleAdmin 1))).2 = 403
  ∧ (handle sample_hash sample_compare sample_secret Rev2 sample_state
       (sample_request (Some owner_token) (PutToggleAdmin 1))).1 = sample_state.
Proof.
  assert (route (sample_request (Some owner_token) (PutToggleAdmin 1))
          = PutToggleAdmin 1) as Hr by reflexivity.
  assert (requireAuth sample_secret
            (now (sample_request (Some owner_token) (PutToggleAdmin 1)))
            (authorization (sample_request (Some owner_token) (PutToggleAdmin 1)))
          = Some (payload owner_token)) as Ha by (vm_compute; reflexivity).
  assert (users sample_state !! 1 = Some sample_owner) as Ht
    by (vm_compute; reflexivity).
  assert (isOwner sample_owner = true) as Ho by reflexivity.
  exact (proj1 (toggle_admin_owner_target sample_hash sample_compare sample_secret
                  sample_state _ 1 _ sample_owner Hr Ha Ht Ho)).
Defined.

(** Account 3 is not an admin in the store; its token still says it is. *)
Lemma admin_users_checks_stored_role_witness :
  claim_isAdmin (payload stale_admin_token) = Some true
  ∧ handle sample_hash sample_compare sample_secret Rev2 sample_state
      (sample_request (Some stale_admin_token) GetAdminUsers)
    = (sample_state, respond 403 (BMessage "Access denied. Admins only.")).
Proof.
  split; [reflexivity|].
  assert (route (sample_request (Some stale_admin_token) GetAdminUsers)
          = GetAdminUsers) as Hr by reflexivity.
  assert (requireAuth sample_secret
            (now (sample_request (Some stale_admin_token) GetAdminUsers))
            (authorization (sample_request (Some stale_admin_token) GetAdminUsers))
          = Some (payload stale_admin_token)) as Ha by (vm_compute; reflexivity).
  apply (proj1 (admin_users_checks_stored_role sample_hash sample_compare
                  sample_secret Rev2 sample_state _ _ Hr Ha)).
  vm_compute. reflexivity.
Defined.

(** The first revision answers a registration with a message, not a token. *)
Lemma register_fresh_email_counterexample :
  findOne "new@example.com" (users sample_state) = None
  ∧ (handle sample_hash sample_compare sample_secret Rev1 sample_state
       (sample_request None (PostRegister "new@example.com" "correct horse"))).2
    = respond 201 (BMessage "User created")
  ∧ ∀ tok,
      body (handle sample_hash sample_compare sample_secret Rev1 sample_state
              (sample_request None (PostRegister "new@example.com" "correct horse"))).2
      ≠ BToken tok.
Proof. vm_compute. repeat split; discriminate. Qed.

Lemma register_fresh_email_witness :
  ∃ id account tok,
    handle sample_hash sample_compare sample_secret Rev2 sample_state
      (sample_request None (PostRegister "new@example.com" "correct horse"))
    = (with_users (<[id := account]> (users sample_state)) sample_state,
       respond 201 (BToken tok))
    ∧ users sample_state !! id = None
    ∧ email account = "new@example.com"
    ∧ jwt_verify tok sample_secret
        (now (sample_request None (PostRegister "new@example.com" "correct horse")))
      = Some (payload tok)
    ∧ userId (payload tok) = id.
Proof.
  assert (route (sample_request None (PostRegister "new@example.com" "correct horse"))
          = PostRegister "new@example.com" "correct horse") as Hr by reflexivity.
  assert (findOne "new@example.com" (users sample_state) = None) as Hn
    by (vm_compute; reflexivity).
  exact (proj1 (register_fresh_email sample_hash sample_compare sample_secret
                  sample_state _ _ _ Hr Hn)).
Defined.

(** The owner toggles the admin; the owner and the admin keep their
    [isOwner]. *)
Lemma isOwner_never_mutated_witness :
  ∃ a',
    users (serve sample_hash sample_compare sample_secret Rev2 sample_state
             (sample_request (Some owner_token) (PutToggleAdmin 2))).1 !! 2
    = Some a'
    ∧ isOwner a' = isOwner sample_admin.
Proof.
  assert (users sample_state !! 2 = Some sample_admin) as Hl
    by (vm_compute; reflexivity).
  exact (isOwner_never_mutated sample_hash sample_compare sample_secret Rev2
           sample_state (sample_request (Some owner_token) (PutToggleAdmin 2))
           2 sample_admin Hl).
Defined.

(** The owner promotes the sample user and demotes it again. *)
Lemma toggle_admin_twice_witness :
  isAdmin sample_user = false
  ∧ isAdmin <$> users (handle sample_hash sample_compare sample_secret Rev2 sample_state
                         (sample_request (Some owner_token) (PutToggleAdmin 3))).1 !! 3
    = Some true
  ∧ isAdmin <$> users (handle sample_hash sample_compare sample_secret Rev2
                         (handle sample_hash sample_compare sample_secret Rev2 sample_state
                            (sample_request (Some owner_token) (PutToggleAdmin 3))).1
                         (sample_request (Some owner_token) (PutToggleAdmin 3))).1 !! 3
    = Some false
  ∧ (handle sample_hash sample_compare sample_secret Rev2
       (handle sample_hash sample_compare sample_secret Rev2 sample_state
          (sample_request (Some owner_token) (PutToggleAdmin 3))).1
       (sample_request (Some owner_token) (PutToggleAdmin 3))).1
    = sample_state.
Proof.
  assert (route (sample_request (Some owner_token) (PutToggleAdmin 3))
          = PutToggleAdmin 3) as Hr by reflexivity.
  assert (requireAuth sample_secret
            (now (sample_request (Some owner_token) (PutToggleAdmin 3)))
            (authorization (sample_request (Some owner_token) (PutToggleAdmin 3)))
          = Some (payload owner_token)) as Ha by (vm_compute; reflexivity).
  assert (users sample_state !! 3 = Some sample_user) as Ht
    by (vm_compute; reflexivity).
  assert (isOwner sample_user = false) as Ho by reflexivity.
  assert (passes_actor_check Rev2 sample_state (payload owner_token) = true)
    as Hp1 by (vm_compute; reflexivity).
  assert (passes_actor_check Rev2
            (handle sample_hash sample_compare sample_secret Rev2 sample_state
               (sample_request (Some owner_token) (PutToggleAdmin 3))).1
            (payload owner_token) = true)
    as Hp2 by (vm_compute; reflexivity).
  pose proof (toggle_admin_twice sample_hash sample_compare sample_secret Rev2
                sample_state _ _ 3 _ _ sample_user Hr Hr Ha Ha Ht Ho Hp1 Hp2)
    as ((u1 & Hl1 & Hadm & _) & _ & _ & H4 & H5 & _).
  split; [reflexivity|].
  split; [rewrite Hl1; simpl; rewrite Hadm; reflexivity|].
  split; [exact H4|exact H5].
Defined.

(** An unknown email against a wrong password for a known one. *)
Lemma login_failures_indistinguishable_witness :
  (handle sample_hash sample_compare sample_secret Rev2 sample_state
     (sample_request None (PostLogin "nobody@example.com" "hunter2"))).2
  = (handle sample_hash sample_compare sample_secret Rev2 sample_state
       (sample_request None (PostLogin "user@example.com" "hunter3"))).2
  ∧ (handle sample_hash sample_compare sample_secret Rev2 sample_state
       (sample_request None (PostLogin "nobody@example.com" "hunter2"))).2
    = respond 400 (BMessage "Invalid credentials").
Proof.
  assert (findOne "nobody@example.com" (users sample_state) = None) as Hn
    by (vm_compute; reflexivity).
  assert (findOne "user@example.com" (users sample_state) = Some (3, sample_user))
    as Hs by (vm_compute; reflexivity).
  assert (sample_compare "hunter3" (password sample_user) = false) as Hc
    by (vm_compute; reflexivity).
  exact (login_failures_indistinguishable sample_hash sample_compare sample_secret
           Rev2 sample_state sample_state
           (sample_request None (PostLogin "nobody@example.com" "hunter2"))
           (sample_request None (PostLogin "user@example.com" "hunter3"))
           _ _ _ _ 3 sample_user eq_refl eq_refl Hn Hs Hc).
Defined.

(** Eleven requests of one client within a minute, all of them failed
    logins: ten reach the login route, and a twelfth is answered 429. *)
Lemma rate_limit_window_witness :
  served_of (ip first_request) (Parsed first_request :: sample_traffic)
    (app_run sample_hash sample_compare sample_secret Rev2 sample_state
       (Parsed first_request :: sample_traffic)).1 = 10
  ∧ windows (app_run sample_hash sample_compare sample_secret Rev2 sample_state
       (Parsed first_request :: sample_traffic)).2
      !! ip first_request
    = Some {| count := 10; windowStart := sample_now |}
  ∧ (app sample_hash sample_compare sample_secret Rev2
       (app_run sample_hash sample_compare sample_secret Rev2 sample_state
       (Parsed first_request :: sample_traffic)).2
       (Parsed twelfth_request)).2
    = Answered too_many_requests
  ∧ reached_route
      (app sample_hash sample_compare sample_secret Rev2
         (app_run sample_hash sample_compare sample_secret Rev2 sample_state
       (Parsed first_request :: sample_traffic)).2
         (Parsed late_request)).2
    = true.
Proof.
  assert (opens_window (now first_request) (ip first_request)
            (windows sample_state)) as Ho by reflexivity.
  assert (Forall (arrives_before (ip first_request)
                    (now first_request + windowMs)) sample_traffic) as Hin.
  { unfold sample_traffic. simpl.
    repeat (apply Forall_cons; split;
            [first [exact I | intros _; vm_compute; reflexivity]|]).
    constructor. }
  assert (served_of (ip first_request) (Parsed first_request :: sample_traffic)
            (app_run sample_hash sample_compare sample_secret Rev2 sample_state
       (Parsed first_request :: sample_traffic)).1 = 10) as Hten by (vm_compute; reflexivity).
  pose proof (rate_limit_window sample_hash sample_compare sample_secret Rev2 sample_state
                first_request sample_traffic Ho Hin)
    as (_ & H2 & H3 & H4).
  split; [exact Hten|].
  split; [rewrite H2, Hten; reflexivity|].
  split.
  - apply H3; [reflexivity | vm_compute; reflexivity | exact Hten].
  - apply (H4 late_request); [reflexivity | vm_compute; discriminate].
Defined.

(** Twenty-one characters, eleven of them after trimming: answered 400. *)
Lemma generate_titles_boundary_counterexample :
  length padded_transcript = 21
  ∧ upstream (sample_request (Some admin_token)
                (PostGenerateTitles (Some padded_transcript))) = Some "1. A title"
  ∧ (handle sample_hash sample_compare sample_secret Rev2 sample_state
       (sample_request (Some admin_token)
          (PostGenerateTitles (Some padded_transcript)))).2
    = respond 400 (BError "Transcript is too short or missing.")
  ∧ status (handle sample_hash sample_compare sample_secret Rev2 sample_state
              (sample_request (Some admin_token)
                 (PostGenerateTitles (Some padded_transcript)))).2 ≠ 200.
Proof. vm_compute. repeat split; discriminate. Qed.

Lemma generate_titles_boundary_witness :
  handle sample_hash sample_compare sample_secret Rev2 sample_state
    (sample_request (Some admin_token)
       (PostGenerateTitles (Some (code_units "A talk about proof assistants"))))
  = (sample_state, respond 200 (BTitles "1. A title")).
Proof.
  assert (requireAuth sample_secret
            (now (sample_request (Some admin_token)
                    (PostGenerateTitles
                       (Some (code_units "A talk about proof assistants")))))
            (Some admin_token)
          = Some (payload admin_token)) as Ha by (vm_compute; reflexivity).
  apply (proj2 (proj2 (generate_titles_boundary sample_hash sample_compare
                         sample_secret sample_state
                         (sample_request (Some admin_token)
                            (PostGenerateTitles
                               (Some (code_units "A talk about proof assistants"))))
                         (Some (code_units "A talk about proof assistants"))
                         (payload admin_token) eq_refl Ha))).
  vm_compute. lia.
Defined.

(** The owner's toggle of the sample user answers with the stored hash. *)
Lemma toggle_admin_response_has_hash_witness :
  ∃ msg u',
    body (handle sample_hash sample_compare sample_secret Rev2 sample_state
            (sample_request (Some owner_token) (PutToggleAdmin 3))).2
    = BUserUpdated msg (toJSON 3 u')
    ∧ users (handle sample_hash sample_compare sample_secret Rev2 sample_state
               (sample_request (Some owner_token) (PutToggleAdmin 3))).1 !! 3
      = Some u'
    ∧ j_password (toJSON 3 u') = Some (password u')
    ∧ ∃ u, users sample_state !! 3 = Some u ∧ password u' = password u.
Proof.
  assert (requireAuth sample_secret
            (now (sample_request (Some owner_token) (PutToggleAdmin 3)))
            (Some owner_token)
          = Some (payload owner_token)) as Ha by (vm_compute; reflexivity).
  assert (status (handle sample_hash sample_compare sample_secret Rev2 sample_state
                    (sample_request (Some owner_token) (PutToggleAdmin 3))).2 = 200)
    as Hs by (vm_compute; reflexivity).
  exact (proj1 (toggle_admin_response_has_hash sample_hash sample_compare
                  sample_secret Rev2 sample_state
                  (sample_request (Some owner_token) (PutToggleAdmin 3)) 3
                  (payload owner_token) eq_refl Ha Hs)).
Defined.

(** ** The further properties on the sample data *)

Lemma register_then_login_witness :
  ∃ id tok,
    (handle sample_hash sample_compare sample_secret Rev2
       (handle sample_hash sample_compare sample_secret Rev2 sample_state
          (sample_request None (PostRegister "new@example.com" "correct horse"))).1
       (sample_request None (PostLogin "new@example.com" "correct horse"))).2
    = respond 200 (BToken tok)
    ∧ users sample_state !! id = None
    ∧ email <$> users (handle sample_hash sample_compare sample_secret Rev2 sample_state
                         (sample_request None (PostRegister "new@example.com" "correct horse"))).1 !! id
      = Some "new@example.com"
    ∧ userId (payload tok) = id
    ∧ requireAuth sample_secret (now (sample_request None (PostLogin "new@example.com" "correct horse"))) (Some tok) = Some (payload tok).
Proof.
  assert (findOne "new@example.com" (users sample_state) = None) as Hn
    by (vm_compute; reflexivity).
  assert (sample_compare "correct horse" (sample_hash "correct horse") = true)
    as Hc by (vm_compute; reflexivity).
  exact (register_then_login sample_hash sample_compare sample_secret Rev2 sample_state
           (sample_request None (PostRegister "new@example.com" "correct horse"))
           (sample_request None (PostLogin "new@example.com" "correct horse"))
           "new@example.com" "correct horse" eq_refl eq_refl Hn Hc).
Defined.

Lemma login_sound_witness :
  ∃ u, users sample_state !! userId (payload user_token) = Some u
       ∧ email u = "user@example.com"
       ∧ sample_compare "hunter2" (password u) = true
       ∧ requireAuth sample_secret sample_now (Some user_token) = Some (payload user_token)
       ∧ (∀ b, claim_isAdmin (payload user_token) = Some b → b = isAdmin u)
       ∧ (∀ b, claim_isOwner (payload user_token) = Some b → b = isOwner u).
Proof.
  assert (login_v2 sample_compare sample_secret sample_state sample_now
            "user@example.com" "hunter2" = respond 200 (BToken user_token))
    as Hl by (vm_compute; reflexivity).
  exact (login_sound sample_compare sample_secret sample_state sample_now
           "user@example.com" "hunter2" user_token (or_intror (or_intror Hl))).
Defined.

Lemma toggle_admin_takes_effect_witness :
  (handle sample_hash sample_compare sample_secret Rev2
     (handle sample_hash sample_compare sample_secret Rev2 sample_state
        (sample_request (Some owner_token) (PutToggleAdmin 2))).1
     (sample_request (Some admin_token) GetAdminUsers)).2
  = respond 403 (BMessage "Access denied. Admins only.").
Proof.
  assert (requireAuth sample_secret (now (sample_request (Some owner_token) (PutToggleAdmin 2))) (authorization (sample_request (Some owner_token) (PutToggleAdmin 2)))
          = Some (payload owner_token)) as Ha by (vm_compute; reflexivity).
  assert (requireAuth sample_secret (now (sample_request (Some admin_token) GetAdminUsers)) (authorization (sample_request (Some admin_token) GetAdminUsers))
          = Some (payload admin_token)) as Ha' by (vm_compute; reflexivity).
  assert (users sample_state !! 2 = Some sample_admin) as Ht
    by (vm_compute; reflexivity).
  assert (passes_actor_check Rev2 sample_state (payload owner_token) = true)
    as Hp by (vm_compute; reflexivity).
  exact (toggle_admin_takes_effect sample_hash sample_compare sample_secret Rev2 sample_state
           (sample_request (Some owner_token) (PutToggleAdmin 2))
           (sample_request (Some admin_token) GetAdminUsers)
           2 (payload owner_token) (payload admin_token) sample_admin
           eq_refl Ha Ht eq_refl Hp eq_refl Ha' eq_refl).
Defined.

Lemma protected_routes_need_token_witness :
  handle sample_hash sample_compare sample_secret Rev2 sample_state (sample_request None GetProfile)
  = (sample_state, unauthenticated).
Proof.
  exact (protected_routes_need_token sample_hash sample_compare sample_secret Rev2 sample_state
           (sample_request None GetProfile) eq_refl eq_refl).
Defined.

Lemma toggle_admin_check_order_witness :
  (handle sample_hash sample_compare sample_secret Rev2 sample_state
     (sample_request (Some admin_token) (PutToggleAdmin 3))).1 = sample_state
  ∧ status (handle sample_hash sample_compare sample_secret Rev2 sample_state
              (sample_request (Some admin_token) (PutToggleAdmin 3))).2 = 403
  ∧ handle sample_hash sample_compare sample_secret Rev2 sample_state
      (sample_request (Some admin_token) (PutToggleAdmin 99))
    = handle sample_hash sample_compare sample_secret Rev2 sample_state
        (sample_request (Some admin_token) (PutToggleAdmin 3)).
Proof.
  assert (requireAuth sample_secret (now (sample_request (Some admin_token) (PutToggleAdmin 3))) (authorization (sample_request (Some admin_token) (PutToggleAdmin 3)))
          = Some (payload admin_token)) as Ha by (vm_compute; reflexivity).
  assert (requireAuth sample_secret (now (sample_request (Some admin_token) (PutToggleAdmin 99))) (authorization (sample_request (Some admin_token) (PutToggleAdmin 99)))
          = Some (payload admin_token)) as Ha' by (vm_compute; reflexivity).
  assert (passes_actor_check Rev2 sample_state (payload admin_token) = false)
    as Hp by (vm_compute; reflexivity).
  destruct (toggle_admin_check_order sample_hash sample_compare sample_secret Rev2 sample_state
              (sample_request (Some admin_token) (PutToggleAdmin 3)) 3
              (payload admin_token) eq_refl Ha) as [H1 _].
  destruct (H1 Hp) as (A1 & A2 & A3).
  split; [exact A1|]. split; [exact A2|].
  exact (A3 (sample_request (Some admin_token) (PutToggleAdmin 99)) 99 eq_refl Ha').
Defined.

Lemma owner_keeps_control_witness :
  3 ≠ userId (payload owner_token)
  ∧ users (handle sample_hash sample_compare sample_secret Rev2 sample_state
             (sample_request (Some owner_token) (PutToggleAdmin 3))).1
      !! userId (payload owner_token)
    = users sample_state !! userId (payload owner_token)
  ∧ passes_actor_check Rev2
      (handle sample_hash sample_compare sample_secret Rev2 sample_state
         (sample_request (Some owner_token) (PutToggleAdmin 3))).1
      (payload owner_token) = true.
Proof.
  assert (requireAuth sample_secret (now (sample_request (Some owner_token) (PutToggleAdmin 3))) (authorization (sample_request (Some owner_token) (PutToggleAdmin 3)))
          = Some (payload owner_token)) as Ha by (vm_compute; reflexivity).
  assert (status (handle sample_hash sample_compare sample_secret Rev2 sample_state
                    (sample_request (Some owner_token) (PutToggleAdmin 3))).2 = 200)
    as Hs by (vm_compute; reflexivity).
  exact (owner_keeps_control sample_hash sample_compare sample_secret sample_state
           (sample_request (Some owner_token) (PutToggleAdmin 3)) 3
           (payload owner_token) eq_refl Ha Hs).
Defined.

Lemma admin_self_demotion_v1_witness :
  status (handle sample_hash sample_compare sample_secret Rev1 sample_state
            (sample_request (Some admin_token) (PutToggleAdmin 2))).2 = 200
  ∧ handle sample_hash sample_compare sample_secret Rev1
      (serve_all sample_hash sample_compare sample_secret Rev1
         (handle sample_hash sample_compare sample_secret Rev1 sample_state
          (sample_request (Some admin_token) (PutToggleAdmin 2))).1
         [other_login])
      (sample_request (Some admin_token) (PutToggleAdmin 3))
    = (serve_all sample_hash sample_compare sample_secret Rev1
         (handle sample_hash sample_compare sample_secret Rev1 sample_state
          (sample_request (Some admin_token) (PutToggleAdmin 2))).1
         [other_login],
       respond 403 (BError "Forbidden: Admins only")).
Proof.
  assert (requireAuth sample_secret (now (sample_request (Some admin_token) (PutToggleAdmin 2))) (authorization (sample_request (Some admin_token) (PutToggleAdmin 2)))
          = Some (payload admin_token)) as Ha by (vm_compute; reflexivity).
  assert (requireAuth sample_secret (now (sample_request (Some admin_token) (PutToggleAdmin 3))) (authorization (sample_request (Some admin_token) (PutToggleAdmin 3)))
          = Some (payload admin_token)) as Ha' by (vm_compute; reflexivity).
  assert (users sample_state !! userId (payload admin_token) = Some sample_admin)
    as Hl by (vm_compute; reflexivity).
  assert (Forall (λ r, route r ≠ PutToggleAdmin (userId (payload admin_token)))
            [other_login]) as Hall.
  { apply Forall_cons. split; [simpl; discriminate|constructor]. }
  destruct (admin_self_demotion_v1 sample_hash sample_compare sample_secret sample_state
              (sample_request (Some admin_token) (PutToggleAdmin 2))
              (payload admin_token) sample_admin eq_refl Ha Hl eq_refl)
    as (A1 & _ & A3).
  split; [exact A1|].
  exact (A3 [other_login] (sample_request (Some admin_token) (PutToggleAdmin 3)) 3 (payload admin_token)
           Hall eq_refl Ha' eq_refl).
Defined.

Lemma only_toggle_admin_exposes_hash_witness :
  ∃ target, route (sample_request (Some owner_token) (PutToggleAdmin 3))
            = PutToggleAdmin target.
Proof.
  assert (body_has_password
            (body (serve sample_hash sample_compare sample_secret Rev2 sample_state
                     (sample_request (Some owner_token) (PutToggleAdmin 3))).2) = true)
    as Hb by (vm_compute; reflexivity).
  exact (only_toggle_admin_exposes_hash sample_hash sample_compare sample_secret Rev2 sample_state
           (sample_request (Some owner_token) (PutToggleAdmin 3)) Hb).
Defined.

Lemma isAdmin_changes_only_by_toggle_witness :
  ∃ a', users (serve sample_hash sample_compare sample_secret Rev2 sample_state
                 (sample_request (Some owner_token) (PutToggleAdmin 3))).1 !! 2 = Some a'
        ∧ isAdmin a' = isAdmin sample_admin ∧ email a' = email sample_admin.
Proof.
  assert (users sample_state !! 2 = Some sample_admin) as Hl
    by (vm_compute; reflexivity).
  assert (route (sample_request (Some owner_token) (PutToggleAdmin 3)) ≠ PutToggleAdmin 2)
    as Hr by (simpl; discriminate).
  exact (isAdmin_changes_only_by_toggle sample_hash sample_compare sample_secret Rev2 sample_state
           (sample_request (Some owner_token) (PutToggleAdmin 3)) 2 sample_admin Hl Hr).
Defined.

Lemma profile_changes_only_by_own_update_witness :
  ∃ a', users (serve sample_hash sample_compare sample_secret Rev2 sample_state
                 (sample_request (Some user_token) (PutProfile (Some "Ada") (Some "Talks about proofs")))).1 !! 2
        = Some a'
        ∧ name a' = name sample_admin ∧ bio a' = bio sample_admin.
Proof.
  assert (users sample_state !! 2 = Some sample_admin) as Hl
    by (vm_compute; reflexivity).
  assert (∀ n b user,
            route (sample_request (Some user_token) (PutProfile (Some "Ada") (Some "Talks about proofs")))
            = PutProfile n b →
            requireAuth sample_secret
              (now (sample_request (Some user_token) (PutProfile (Some "Ada") (Some "Talks about proofs"))))
              (authorization (sample_request (Some user_token) (PutProfile (Some "Ada") (Some "Talks about proofs"))))
            = Some user →
            userId user ≠ 2) as Hr.
  { intros n b user _ Ha. vm_compute in Ha. injection Ha as <-.
    simpl. discriminate. }
  exact (profile_changes_only_by_own_update sample_hash sample_compare sample_secret Rev2 sample_state
           (sample_request (Some user_token) (PutProfile (Some "Ada") (Some "Talks about proofs")))
           2 sample_admin Hl Hr).
Defined.

Lemma admin_users_lists_every_account_witness :
  from_option isAdmin false (users sample_state !! userId (payload admin_token)) = true
  ∧ ∀ d, d ∈ ((λ d : nat * Account, select_minus_password d.1 d.2) <$> find_all (users sample_state))
         ↔ ∃ id u, users sample_state !! id = Some u
                   ∧ d = select_minus_password id u.
Proof.
  assert (requireAuth sample_secret (now (sample_request (Some admin_token) GetAdminUsers)) (authorization (sample_request (Some admin_token) GetAdminUsers))
          = Some (payload admin_token)) as Ha by (vm_compute; reflexivity).
  assert ((handle sample_hash sample_compare sample_secret Rev2 sample_state
            (sample_request (Some admin_token) GetAdminUsers)).2
          = respond 200
              (BUsers ((λ d : nat * Account, select_minus_password d.1 d.2) <$> find_all (users sample_state))))
    as Hs by (vm_compute; reflexivity).
  exact (admin_users_lists_every_account sample_hash sample_compare sample_secret Rev2 sample_state
           (sample_request (Some admin_token) GetAdminUsers) (payload admin_token) _ eq_refl Ha Hs).
Defined.

Lemma history_is_own_newest_first_witness :
  ∃ docs,
    (∀ id t, (id, t) ∈ docs
             ↔ transcripts sample_library !! id = Some t
               ∧ t_userId t = userId (payload user_token))
    ∧ NoDup docs
    ∧ Sorted newer docs
    ∧ (route (sample_request (Some user_token) GetHistory) = GetTranscripts →
       handle sample_hash sample_compare sample_secret Rev1 sample_library
         (sample_request (Some user_token) GetHistory)
       = (sample_library, respond 200 (BTranscripts docs)))
    ∧ (route (sample_request (Some user_token) GetHistory) = GetHistory →
       handle sample_hash sample_compare sample_secret Rev2 sample_library
         (sample_request (Some user_token) GetHistory)
       = (sample_library, respond 200 (BHistory (select_history <$> docs)))).
Proof.
  assert (requireAuth sample_secret (now (sample_request (Some user_token) GetHistory)) (authorization (sample_request (Some user_token) GetHistory))
          = Some (payload user_token)) as Ha by (vm_compute; reflexivity).
  exact (history_is_own_newest_first sample_hash sample_compare sample_secret sample_library
           (sample_request (Some user_token) GetHistory) (payload user_token) Ha).
Defined.

Lemma delete_foreign_transcript_not_found_witness :
  handle sample_hash sample_compare sample_secret Rev2 sample_library
    (sample_request (Some user_token) (DeleteTranscript 2))
  = (sample_library,
     respond 404 (BMessage "Transcript not found or unauthorized")).
Proof.
  assert (requireAuth sample_secret (now (sample_request (Some user_token) (DeleteTranscript 2))) (authorization (sample_request (Some user_token) (DeleteTranscript 2)))
          = Some (payload user_token)) as Ha by (vm_compute; reflexivity).
  assert (∀ t, transcripts sample_library !! 2 = Some t →
               t_userId t ≠ userId (payload user_token)) as Hf.
  { intros t Ht. vm_compute in Ht. injection Ht as <-. simpl. discriminate. }
  exact (delete_foreign_transcript_not_found sample_hash sample_compare sample_secret sample_library
           (sample_request (Some user_token) (DeleteTranscript 2)) 2
           (payload user_token) (or_introl eq_refl) Ha Hf).
Defined.

Lemma transcripts_immutable_and_owned_witness :
  transcripts (serve sample_hash sample_compare sample_secret Rev2 sample_library
                 (sample_request (Some user_token) (DeleteTranscript 2))).1 !! 2
  = Some (sample_transcript 2 20)
  ∨ (transcripts (serve sample_hash sample_compare sample_secret Rev2 sample_library
                    (sample_request (Some user_token) (DeleteTranscript 2))).1 !! 2
     = None
     ∧ (route (sample_request (Some user_token) (DeleteTranscript 2)) = DeleteTranscript 2
        ∨ route (sample_request (Some user_token) (DeleteTranscript 2)) = DeleteHistory 2)
     ∧ ∃ user,
         requireAuth sample_secret
           (now (sample_request (Some user_token) (DeleteTranscript 2)))
           (authorization (sample_request (Some user_token) (DeleteTranscript 2)))
         = Some user
         ∧ userId user = t_userId (sample_transcript 2 20)).
Proof.
  assert (transcripts sample_library !! 2 = Some (sample_transcript 2 20)) as Hl
    by (vm_compute; reflexivity).
  exact (transcripts_immutable_and_owned sample_hash sample_compare sample_secret Rev2 sample_library
           (sample_request (Some user_token) (DeleteTranscript 2)) 2
           (sample_transcript 2 20) Hl).
Defined.

Lemma generate_chapters_then_history_witness :
  ∃ id,
    transcripts sample_library !! id = None
    ∧ (handle sample_hash sample_compare sample_secret Rev2 sample_library
         (sample_request (Some user_token) (PostGenerateChapters (code_units "welcome back to the channel") "timestamps"))).2
      = respond 200 (BChapters "1. A title")
    ∧ users (handle sample_hash sample_compare sample_secret Rev2 sample_library
               (sample_request (Some user_token) (PostGenerateChapters (code_units "welcome back to the channel") "timestamps"))).1
      = users sample_library
    ∧ (id, {| text := code_units "welcome back to the channel"; format := "timestamps";
              result := "1. A title"; t_userId := userId (payload user_token);
              createdAt := now (sample_request (Some user_token) (PostGenerateChapters (code_units "welcome back to the channel") "timestamps")) |})
      ∈ find_transcripts (userId (payload user_token))
          (transcripts (handle sample_hash sample_compare sample_secret Rev2 sample_library
                          (sample_request (Some user_token) (PostGenerateChapters (code_units "welcome back to the channel") "timestamps"))).1)
    ∧ ∀ id' t, transcripts sample_library !! id' = Some t →
               transcripts (handle sample_hash sample_compare sample_secret Rev2 sample_library
                              (sample_request (Some user_token) (PostGenerateChapters (code_units "welcome back to the channel") "timestamps"))).1 !! id'
               = Some t.
Proof.
  assert (requireAuth sample_secret (now (sample_request (Some user_token) (PostGenerateChapters (code_units "welcome back to the channel") "timestamps"))) (authorization (sample_request (Some user_token) (PostGenerateChapters (code_units "welcome back to the channel") "timestamps")))
          = Some (payload user_token)) as Ha by (vm_compute; reflexivity).
  exact (generate_chapters_then_history sample_hash sample_compare sample_secret Rev2 sample_library
           (sample_request (Some user_token) (PostGenerateChapters (code_units "welcome back to the channel") "timestamps"))
           (code_units "welcome back to the channel") "timestamps" (payload user_token) "1. A title"
           eq_refl Ha eq_refl).
Defined.

Lemma generate_then_delete_witness :
  (handle sample_hash sample_compare sample_secret Rev2
     (handle sample_hash sample_compare sample_secret Rev2 sample_library
        (sample_request (Some user_token) (PostGenerateChapters (code_units "welcome back to the channel") "timestamps"))).1
     (sample_request (Some user_token) (DeleteHistory 4))).1 = sample_library
  ∧ status (handle sample_hash sample_compare sample_secret Rev2
              (handle sample_hash sample_compare sample_secret Rev2 sample_library
                 (sample_request (Some user_token) (PostGenerateChapters (code_units "welcome back to the channel") "timestamps"))).1
              (sample_request (Some user_token) (DeleteHistory 4))).2 = 200.
Proof.
  assert (requireAuth sample_secret (now (sample_request (Some user_token) (PostGenerateChapters (code_units "welcome back to the channel") "timestamps"))) (authorization (sample_request (Some user_token) (PostGenerateChapters (code_units "welcome back to the channel") "timestamps")))
          = Some (payload user_token)) as Ha by (vm_compute; reflexivity).
  assert (requireAuth sample_secret (now (sample_request (Some user_token) (DeleteHistory 4))) (authorization (sample_request (Some user_token) (DeleteHistory 4)))
          = Some (payload user_token)) as Ha' by (vm_compute; reflexivity).
  assert (transcripts sample_library !! 4 = None) as Hn
    by (vm_compute; reflexivity).
  assert (is_Some (transcripts (handle sample_hash sample_compare sample_secret Rev2 sample_library
                                  (sample_request (Some user_token) (PostGenerateChapters (code_units "welcome back to the channel") "timestamps"))).1 !! 4))
    as Hs by (vm_compute; eexists; reflexivity).
  exact (generate_then_delete sample_hash sample_compare sample_secret sample_library
           (sample_request (Some user_token) (PostGenerateChapters (code_units "welcome back to the channel") "timestamps"))
           (sample_request (Some user_token) (DeleteHistory 4))
           (code_units "welcome back to the channel") "timestamps" (payload user_token) (payload user_token)
           "1. A title" 4 eq_refl Ha eq_refl Hn Hs (or_intror eq_refl) Ha' eq_refl).
Defined.

Lemma profile_roundtrip_witness :
  (handle sample_hash sample_compare sample_secret Rev2 sample_state
     (sample_request (Some user_token) (PutProfile (Some "Ada") (Some "Talks about proofs")))).2
  = respond 200 (BMessage "Profile updated")
  ∧ (handle sample_hash sample_compare sample_secret Rev2
       (handle sample_hash sample_compare sample_secret Rev2 sample_state
          (sample_request (Some user_token) (PutProfile (Some "Ada") (Some "Talks about proofs")))).1
       (sample_request (Some user_token) GetProfile)).2
    = respond 200
        (BUser {| j_id := userId (payload user_token); j_email := email sample_user;
                  j_password := None; j_isAdmin := isAdmin sample_user;
                  j_isOwner := isOwner sample_user; j_name := Some "Ada";
                  j_bio := Some "Talks about proofs" |}).
Proof.
  assert (requireAuth sample_secret (now (sample_request (Some user_token) (PutProfile (Some "Ada") (Some "Talks about proofs")))) (authorization (sample_request (Some user_token) (PutProfile (Some "Ada") (Some "Talks about proofs"))))
          = Some (payload user_token)) as Ha by (vm_compute; reflexivity).
  assert (requireAuth sample_secret (now (sample_request (Some user_token) GetProfile)) (authorization (sample_request (Some user_token) GetProfile))
          = Some (payload user_token)) as Ha' by (vm_compute; reflexivity).
  assert (users sample_state !! userId (payload user_token) = Some sample_user)
    as Hl by (vm_compute; reflexivity).
  exact (profile_roundtrip sample_hash sample_compare sample_secret sample_state
           (sample_request (Some user_token) (PutProfile (Some "Ada") (Some "Talks about proofs")))
           (sample_request (Some user_token) GetProfile)
           (Some "Ada") (Some "Talks about proofs") (payload user_token)
           (payload user_token) sample_user eq_refl Ha Hl eq_refl Ha' eq_refl).
Defined.

Lemma generate_titles_whitespace_only_witness :
  handle sample_hash sample_compare sample_secret Rev2 sample_state
    (sample_request (Some user_token) (PostGenerateTitles (Some (replicate 25 32%N))))
  = (sample_state, respond 400 (BError "Transcript is too short or missing.")).
Proof.
  assert (requireAuth sample_secret (now (sample_request (Some user_token) (PostGenerateTitles (Some (replicate 25 32%N))))) (authorization (sample_request (Some user_token) (PostGenerateTitles (Some (replicate 25 32%N)))))
          = Some (payload user_token)) as Ha by (vm_compute; reflexivity).
  assert (Forall (λ c, is_whitespace c = true) (replicate 25 32%N)) as Hws
    by (simpl; repeat constructor).
  exact (generate_titles_whitespace_only sample_hash sample_compare sample_secret sample_state
           (sample_request (Some user_token) (PostGenerateTitles (Some (replicate 25 32%N))))
           (replicate 25 32%N) (payload user_token) eq_refl Ha Hws).
Defined.

Lemma generate_titles_exact_boundary_witness :
  length (code_units "exactly twenty chars") = 20
  ∧ (status (handle sample_hash sample_compare sample_secret Rev2 sample_state
               (sample_request (Some user_token) (PostGenerateTitles (Some (code_units "exactly twenty chars"))))).2
     = 400
     ↔ length (code_units "exactly twenty chars") < 20).
Proof.
  split; [reflexivity|].
  assert (requireAuth sample_secret (now (sample_request (Some user_token) (PostGenerateTitles (Some (code_units "exactly twenty chars"))))) (authorization (sample_request (Some user_token) (PostGenerateTitles (Some (code_units "exactly twenty chars")))))
          = Some (payload user_token)) as Ha by (vm_compute; reflexivity).
  assert (head (code_units "exactly twenty chars") = Some 101%N) as Hh
    by (vm_compute; reflexivity).
  assert (last (code_units "exactly twenty chars") = Some 115%N) as Hl
    by (vm_compute; reflexivity).
  exact (generate_titles_exact_boundary sample_hash sample_compare sample_secret sample_state
           (sample_request (Some user_token) (PostGenerateTitles (Some (code_units "exactly twenty chars"))))
           (code_units "exactly twenty chars") (payload user_token) 101%N 115%N
           eq_refl Ha Hh eq_refl Hl eq_refl).
Defined.
